(** * uavcan.monitors: node status registry and dynamic node-ID server

    A shallow embedding of [uavcan/monitors/__init__.py].

    - Python integers are [Z]; [None] is [option]'s [None].
    - Byte strings ([unique_id.to_bytes()], [QUERY]) are [list byte].
    - The class-level dictionaries are [gmap]s; the set
      [allocated_node_ids] is a [gset].
    - Readings of [time.monotonic()] are binary64 floating-point numbers
      (the primitive floats), passed in by the caller; they are subtracted
      and compared with the IEEE 754 operations, as Python does.
    - [self.node.broadcast], [self.node.request], the [logger] calls and the
      new-node callback are recorded, in program order, in a list of events
      returned next to the new state. *)

From Stdlib Require Import PrimFloat.
From Stdlib Require FloatOps FloatAxioms SpecFloat.
From Stdlib Require Import ZArith Lia List Bool.
From Stdlib.Strings Require Import Byte Ascii String.
From stdpp Require Import base option list list_numbers countable gmap.

Local Open Scope Z_scope.

(** ** Python values *)

Abbreviation bytes := (list byte).

#[global] Instance byte_eq_dec : EqDecision byte := Byte.byte_eq_dec.

#[global] Instance byte_countable : Countable byte :=
  inj_countable Byte.to_N Byte.of_N Byte.of_to_N.

(** Truth value of an [int]: every integer but [0]. *)
Definition truthy_int (n : Z) : bool := negb (n =? 0).

(** Truth value of a variable that holds [None] or an [int]. *)
Definition truthy (v : option Z) : bool :=
  match v with
  | Some n => truthy_int n
  | None => false
  end.

(** [range(a, b)]: a, a+1, ..., b-1. *)
Definition range (a b : Z) : list Z := seqZ a (b - a).

(** [range(a, b, -1)]: a, a-1, ..., b+1. *)
Definition range_down (a b : Z) : list Z := (fun i => a - i) <$> seqZ 0 (a - b).

(** [x - y > limit] on clock readings: the difference is the binary64
    subtraction, rounded to the nearest float, and it is that float which
    is compared with the limit. *)
Definition elapsed_gt (x y limit : float) : bool :=
  PrimFloat.ltb limit (PrimFloat.sub x y).

(** [format(c, "02X")] for a byte [c]: two upper-case hexadecimal digits. *)
Definition hex_digit (n : N) : ascii :=
  if (n <? 10)%N then ascii_of_N (48 + n) else ascii_of_N (55 + n).

Definition format_02X (c : byte) : string :=
  let n := Byte.to_N c in
  String (hex_digit (n / 16)) (String (hex_digit (n mod 16)) EmptyString).

(** ** NodeStatusMonitor *)

Module NodeStatusMonitor.

(** uavcan.protocol.NodeStatus: the handler reads [uptime_sec] only and
    stores the message whole. *)
Record NodeStatus := {
  uptime_sec : Z;
  status_fields : bytes
}.

Record SoftwareVersion := {
  sw_major : Z;
  sw_minor : Z;
  vcs_commit : Z;
  image_crc : Z
}.

Record HardwareVersion := {
  hw_major : Z;
  hw_minor : Z;
  hw_unique_id : bytes
}.

(** The response of uavcan.protocol.GetNodeInfo, as far as it is read. *)
Record GetNodeInfo := {
  software_version : SoftwareVersion;
  hardware_version : HardwareVersion;
  name : bytes
}.

Record Transfer := { source_node_id : Z }.

(** The arguments of the [str.format] call of [on_nodeinfo_response], in
    order. *)
Record NodeInfoLine := {
  line_node_id : Z;
  line_sw_major : Z;
  line_sw_minor : Z;
  line_vcs_commit : Z;
  line_image_crc : Z;
  line_hw_major : Z;
  line_hw_minor : Z;
  line_hw_unique_id : string;
  line_name : string
}.

Inductive Event :=
| request (node_id : Z)
| log_info (line : NodeInfoLine)
| new_node_callback (source : Z) (response : GetNodeInfo).

(** The class attributes; [NODE_TIMESTAMP] is a
    [collections.defaultdict(float)]. *)
Record State := {
  NODE_INFO : gmap Z GetNodeInfo;
  NODE_STATUS : gmap Z NodeStatus;
  NODE_TIMESTAMP : gmap Z float
}.

Definition TIMEOUT : float := 30.

Definition initial : State :=
  {| NODE_INFO := ∅; NODE_STATUS := ∅; NODE_TIMESTAMP := ∅ |}.

(** [NODE_TIMESTAMP[node_id]]: a missing key reads as [float()], 0.0. *)
Definition last_timestamp (st : State) (node_id : Z) : float :=
  match NODE_TIMESTAMP st !! node_id with
  | Some t => t
  | None => 0
  end.

(** [NODE_STATUS[node_id].uptime_sec if node_id in NODE_STATUS else 0] *)
Definition last_node_uptime (st : State) (node_id : Z) : Z :=
  match NODE_STATUS st !! node_id with
  | Some s => uptime_sec s
  | None => 0
  end.

(** The condition of line 33; [now] is the clock reading taken there. *)
Definition needs_refresh (st : State) (now : float) (node_id : Z)
    (message : NodeStatus) : bool :=
  elapsed_gt now (last_timestamp st node_id) TIMEOUT
  || (uptime_sec message <? last_node_uptime st node_id).

(** [on_message]; [stamp] is the clock reading stored at line 31 and [now]
    the one compared at line 33.  The condition reads the values looked up
    before the registry is updated. *)
Definition on_message (stamp now : float) (transfer : Transfer)
    (message : NodeStatus) (st : State) : State * list Event :=
  let node_id := source_node_id transfer in
  ({| NODE_INFO := NODE_INFO st;
      NODE_STATUS := <[node_id := message]> (NODE_STATUS st);
      NODE_TIMESTAMP := <[node_id := stamp]> (NODE_TIMESTAMP st) |},
   if needs_refresh st now node_id message then [request node_id] else []).

Section NodeInfo.

(** [response.name.decode()]; [None] when it raises. *)
Variable decode : bytes -> option string.

(** [self.new_node_callback], [false] when it is [None]. *)
Variable has_new_node_callback : bool.

Definition nodeinfo_line (source : Z) (response : GetNodeInfo)
    (decoded_name : string) : NodeInfoLine :=
  {| line_node_id := source;
     line_sw_major := sw_major (software_version response);
     line_sw_minor := sw_minor (software_version response);
     line_vcs_commit := vcs_commit (software_version response);
     line_image_crc := image_crc (software_version response);
     line_hw_major := hw_major (hardware_version response);
     line_hw_minor := hw_minor (hardware_version response);
     line_hw_unique_id :=
       String.concat EmptyString
         (format_02X <$> hw_unique_id (hardware_version response));
     line_name := decoded_name |}.

(** [on_nodeinfo_response]; an absent (falsy) [response] or [transfer]
    is [None].  When decoding the name raises, the handler is left
    after the registry was updated and before anything is logged. *)
Definition on_nodeinfo_response (response : option GetNodeInfo)
    (transfer : option Transfer) (st : State) : State * list Event :=
  match response, transfer with
  | Some response, Some transfer =>
      let source := source_node_id transfer in
      let st' :=
        {| NODE_INFO := <[source := response]> (NODE_INFO st);
           NODE_STATUS := NODE_STATUS st;
           NODE_TIMESTAMP := NODE_TIMESTAMP st |} in
      match decode (name response) with
      | Some decoded_name =>
          (st',
           log_info (nodeinfo_line source response decoded_name) ::
           (if has_new_node_callback
            then [new_node_callback source response] else []))
      | None => (st', [])
      end
  | _, _ => (st, [])
  end.

End NodeInfo.

End NodeStatusMonitor.

(** ** DynamicNodeIDServer *)

Module DynamicNodeIDServer.

(** uavcan.protocol.dynamic_node_id.Allocation *)
Record Allocation := {
  first_part_of_unique_id : bool;
  node_id : Z;
  unique_id : bytes
}.

Inductive LogMessage :=
| GotFirstStage (query : bytes)
| GotSecondStage (query : bytes)
| GotThirdStage (query : bytes)
| Allocated (node_allocated_id : Z) (query : bytes)
| CouldntAllocate
| QueryTimeout.

Inductive Event :=
| broadcast (response : Allocation)
| log_debug (msg : LogMessage)
| log_info (msg : LogMessage)
| log_error (msg : LogMessage).

(** The class attributes [ALLOCATION], [QUERY] and [QUERY_TIME]. *)
Record State := {
  ALLOCATION : gmap bytes (option Z);
  QUERY : bytes;
  QUERY_TIME : float
}.

Definition QUERY_TIMEOUT : float := 3.

(** What [on_message] reads from [self]: [self.node.node_id] and
    [self.dynamic_id_range]. *)
Record Self := {
  self_node_id : Z;
  dynamic_id_range : Z * Z
}.

Definition default_range : Z * Z := (1, 127).

Definition initial : State :=
  {| ALLOCATION := ∅; QUERY := []; QUERY_TIME := 0 |}.

(** [set(ALLOCATION.itervalues()) | set(NODE_STATUS.iterkeys())], then
    [.add(self.node.node_id)]; [node_status] is
    [NodeStatusMonitor.NODE_STATUS]. *)
Definition allocated_node_ids (self : Self)
    (node_status : gmap Z NodeStatusMonitor.NodeStatus)
    (allocation : gmap bytes (option Z)) : gset (option Z) :=
  (map_img allocation ∪ set_map Some (dom node_status))
  ∪ {[ Some (self_node_id self) ]}.

(** [if QUERY in ALLOCATION: node_allocated_id = ALLOCATION[QUERY]],
    starting from [node_allocated_id = None]. *)
Definition previously_allocated (allocation : gmap bytes (option Z))
    (query : bytes) : option Z :=
  match allocation !! query with
  | Some v => v
  | None => None
  end.

(** [for node_id in ids: if node_id not in allocated_node_ids:
    node_allocated_id = node_id; break]. *)
Fixpoint scan (ids : list Z) (excluded : gset (option Z))
    (node_allocated_id : option Z) : option Z :=
  match ids with
  | [] => node_allocated_id
  | node_id :: rest =>
      if decide (Some node_id ∈ excluded)
      then scan rest excluded node_allocated_id
      else Some node_id
  end.

(** [node_requested_id and not node_allocated_id] *)
Definition scan_up_runs (node_requested_id : Z) (node_allocated_id : option Z) : bool :=
  truthy_int node_requested_id && negb (truthy node_allocated_id).

(** [not node_allocated_id] *)
Definition scan_down_runs (node_allocated_id : option Z) : bool :=
  negb (truthy node_allocated_id).

Definition scan_up (self : Self) (excluded : gset (option Z))
    (node_requested_id : Z) (node_allocated_id : option Z) : option Z :=
  if scan_up_runs node_requested_id node_allocated_id
  then scan (range node_requested_id (snd (dynamic_id_range self)))
            excluded node_allocated_id
  else node_allocated_id.

Definition scan_down (self : Self) (excluded : gset (option Z))
    (node_allocated_id : option Z) : option Z :=
  if scan_down_runs node_allocated_id
  then scan (range_down (snd (dynamic_id_range self)) (fst (dynamic_id_range self)))
            excluded node_allocated_id
  else node_allocated_id.

(** Lines 116-142: the value of [node_allocated_id] when the table is
    written. *)
Definition resolve (self : Self) (node_status : gmap Z NodeStatusMonitor.NodeStatus)
    (allocation : gmap bytes (option Z)) (query : bytes)
    (node_requested_id : Z) : option Z :=
  let excluded := allocated_node_ids self node_status allocation in
  scan_down self excluded
    (scan_up self excluded node_requested_id
       (previously_allocated allocation query)).

Definition echo (query : bytes) : Allocation :=
  {| first_part_of_unique_id := false; node_id := 0; unique_id := query |}.

Definition grant (node_allocated_id : Z) (query : bytes) : Allocation :=
  {| first_part_of_unique_id := false; node_id := node_allocated_id;
     unique_id := query |}.

(** Lines 146-155: [if node_allocated_id:] broadcast the grant and log it,
    [else:] log the error. *)
Definition announce (node_allocated_id : option Z) (query : bytes) : list Event :=
  match node_allocated_id with
  | Some n =>
      if truthy_int n
      then [broadcast (grant n query); log_info (Allocated n query)]
      else [log_error CouldntAllocate]
  | None => [log_error CouldntAllocate]
  end.

(** [on_message]; [now] is the reading of [time.monotonic()] taken on the
    path followed (each path takes at most one). *)
Definition on_message (self : Self) (node_status : gmap Z NodeStatusMonitor.NodeStatus) (now : float)
    (message : Allocation) (st : State) : State * list Event :=
  if first_part_of_unique_id message then
    let query := unique_id message in
    ({| ALLOCATION := ALLOCATION st; QUERY := query; QUERY_TIME := now |},
     [broadcast (echo query); log_debug (GotFirstStage query)])
  else if (length (unique_id message) =? 6)%nat && (length (QUERY st) =? 6)%nat then
    let query := QUERY st ++ unique_id message in
    ({| ALLOCATION := ALLOCATION st; QUERY := query; QUERY_TIME := now |},
     [broadcast (echo query); log_debug (GotSecondStage query)])
  else if (length (unique_id message) =? 4)%nat && (length (QUERY st) =? 12)%nat then
    let query := QUERY st ++ unique_id message in
    let node_allocated_id :=
      resolve self node_status (ALLOCATION st) query (node_id message) in
    ({| ALLOCATION := <[query := node_allocated_id]> (ALLOCATION st);
        QUERY := query; QUERY_TIME := now |},
     log_debug (GotThirdStage query) :: announce node_allocated_id query)
  else if elapsed_gt now (QUERY_TIME st) QUERY_TIMEOUT then
    ({| ALLOCATION := ALLOCATION st; QUERY := []; QUERY_TIME := QUERY_TIME st |},
     [log_error QueryTimeout])
  else (st, []).

(** Messages processed one after the other, each with its clock reading. *)
Fixpoint run (self : Self) (node_status : gmap Z NodeStatusMonitor.NodeStatus)
    (inbox : list (float * Allocation)) (st : State) : State * list Event :=
  match inbox with
  | [] => (st, [])
  | (now, message) :: rest =>
      let '(st1, out1) := on_message self node_status now message st in
      let '(st2, out2) := run self node_status rest st1 in
      (st2, out1 ++ out2)
  end.

(** Every address recorded in the table is an address proper: an entry is
    [None] or an integer other than 0. *)
Definition granted_nonzero (allocation : gmap bytes (option Z)) : Prop :=
  forall query a, allocation !! query = Some (Some a) -> a <> 0.

(** The three fragments of one handshake: 6 bytes with the first-part flag,
    then 6 and 4 bytes without it; only the last carries a requested
    address that is read. *)
Definition handshake (t1 t2 t3 : float) (f1 f2 f3 : bytes) (r1 r2 requested : Z)
    : list (float * Allocation) :=
  [ (t1, {| first_part_of_unique_id := true; node_id := r1; unique_id := f1 |});
    (t2, {| first_part_of_unique_id := false; node_id := r2; unique_id := f2 |});
    (t3, {| first_part_of_unique_id := false; node_id := requested; unique_id := f3 |}) ].

End DynamicNodeIDServer.

(** ** Concrete inputs

    The fragments of the scenario of the specification, a server on node 1
    and registries built from lists of node IDs. *)

Module Scenario.
Import DynamicNodeIDServer.

Definition frag1 : bytes := [x01; x02; x03; x04; x05; x06].
Definition frag2 : bytes := [x07; x08; x09; x0a; x0b; x0c].
Definition frag3 : bytes := [x0d; x0e; x0f; x10].

Definition uid : bytes := (frag1 ++ frag2) ++ frag3.

(** The server with [self.node.node_id = 1] and the given
    [dynamic_id_range]. *)
Definition server (lo hi : Z) : Self :=
  {| self_node_id := 1; dynamic_id_range := (lo, hi) |}.

(** [NODE_STATUS] after a status message from each of [ids]. *)
Definition live (ids : list Z) : gmap Z NodeStatusMonitor.NodeStatus :=
  list_to_map
    ((fun n => (n, {| NodeStatusMonitor.uptime_sec := 0;
                      NodeStatusMonitor.status_fields := [] |})) <$> ids).

(** A non-first fragment carrying [fragment] and the requested address. *)
Definition follow_up (fragment : bytes) (requested : Z) : Allocation :=
  {| first_part_of_unique_id := false; node_id := requested;
     unique_id := fragment |}.

Definition first_part (fragment : bytes) : Allocation :=
  {| first_part_of_unique_id := true; node_id := 0; unique_id := fragment |}.

(** A status message reporting the given uptime, and a transfer from the
    given node. *)
Definition status (uptime : Z) : NodeStatusMonitor.NodeStatus :=
  {| NodeStatusMonitor.uptime_sec := uptime;
     NodeStatusMonitor.status_fields := [] |}.

Definition from (source : Z) : NodeStatusMonitor.Transfer :=
  {| NodeStatusMonitor.source_node_id := source |}.

Definition info : NodeStatusMonitor.GetNodeInfo :=
  {| NodeStatusMonitor.software_version :=
       {| NodeStatusMonitor.sw_major := 1; NodeStatusMonitor.sw_minor := 0;
          NodeStatusMonitor.vcs_commit := 48879;
          NodeStatusMonitor.image_crc := 0 |};
     NodeStatusMonitor.hardware_version :=
       {| NodeStatusMonitor.hw_major := 2; NodeStatusMonitor.hw_minor := 1;
          NodeStatusMonitor.hw_unique_id := uid |};
     NodeStatusMonitor.name := [x6e; x6f; x64; x65] |}.

(** A decoder for names of 7-bit characters; it raises on a byte above
    127. *)
Fixpoint decode_ascii (name : bytes) : option string :=
  match name with
  | [] => Some EmptyString
  | c :: rest =>
      if (Byte.to_N c <? 128)%N
      then match decode_ascii rest with
           | Some s => Some (String (ascii_of_N (Byte.to_N c)) s)
           | None => None
           end
      else None
  end.

(** A session in which the first two fragments have been accepted at time
    [t], over the given table. *)
Definition stage2 (allocation : gmap bytes (option Z)) (t : float) : State :=
  {| ALLOCATION := allocation; QUERY := frag1 ++ frag2; QUERY_TIME := t |}.

End Scenario.

(** ** DebugLogMessageMonitor *)

Module DebugLogMessageMonitor.

(** uavcan.protocol.debug.LogMessage, as far as it is read; [level] is
    [message.level.value]. *)
Record LogMessage := {
  level : Z;
  source : bytes;
  text : bytes
}.

(** The four bound methods of the tuple indexed at line 167. *)
Inductive Sink := logger_debug | logger_info | logger_warning | logger_error.

Inductive Exception := UnicodeDecodeError | IndexError.

(** The arguments of the [str.format] call of line 165, in order. *)
Record LogLine := {
  line_node_id : Z;
  line_source : string;
  line_text : string
}.

(** [t[i]] for a tuple [t] and an [int] [i]: an index below zero counts
    from the end, an index outside [-len(t), len(t)) raises. *)
Definition tuple_item {A : Type} (t : list A) (i : Z) : option A :=
  let n := Z.of_nat (length t) in
  if (0 <=? i) && (i <? n) then t !! Z.to_nat i
  else if (- n <=? i) && (i <? 0) then t !! Z.to_nat (i + n)
  else None.

Definition sinks : list Sink :=
  [logger_debug; logger_info; logger_warning; logger_error].

Section Decode.

(** [bytes.decode()]; [None] when it raises. *)
Variable decode : bytes -> option string.

(** [on_message]: the message is formatted first (its arguments are
    evaluated from left to right), then the tuple is indexed, then the
    method found is called with the message. *)
Definition on_message (transfer : NodeStatusMonitor.Transfer)
    (message : LogMessage) : Exception + Sink * LogLine :=
  match decode (source message) with
  | None => inl UnicodeDecodeError
  | Some decoded_source =>
      match decode (text message) with
      | None => inl UnicodeDecodeError
      | Some decoded_text =>
          let logmsg :=
            {| line_node_id := NodeStatusMonitor.source_node_id transfer;
               line_source := decoded_source;
               line_text := decoded_text |} in
          match tuple_item sinks (level message) with
          | None => inl IndexError
          | Some sink => inr (sink, logmsg)
          end
      end
  end.

End Decode.

End DebugLogMessageMonitor.

(** ** Streams of allocation messages

    The server's handler is called once per inbound message; between two
    calls the registry of the status monitor, and the instance handling the
    message, may have changed. *)

Module ServerStream.
Import DynamicNodeIDServer.

(** One inbound message together with what the handler reads while it
    processes it. *)
Record Delivery := {
  handler : Self;
  registry : gmap Z NodeStatusMonitor.NodeStatus;
  clock : float;
  message : Allocation
}.

Definition step (d : Delivery) (st : State) : State * list Event :=
  on_message (handler d) (registry d) (clock d) (message d) st.

Fixpoint deliver (inbox : list Delivery) (st : State) : State * list Event :=
  match inbox with
  | [] => (st, [])
  | d :: rest =>
      let '(st1, out1) := step d st in
      let '(st2, out2) := deliver rest st1 in
      (st2, out1 ++ out2)
  end.

(** No address other than 0 is recorded for two UniqueIds. *)
Definition no_shared_address (allocation : gmap bytes (option Z)) : Prop :=
  forall query1 query2 a,
    a <> 0 ->
    allocation !! query1 = Some (Some a) ->
    allocation !! query2 = Some (Some a) ->
    query1 = query2.

(** Every key of the table is a complete UniqueId. *)
Definition keys_complete (allocation : gmap bytes (option Z)) : Prop :=
  forall query, is_Some (allocation !! query) -> length query = 16%nat.

(** The session lengths of the three-stage handshake. *)
Definition stage_length (n : nat) : Prop :=
  n = 0%nat \/ n = 6%nat \/ n = 12%nat \/ n = 16%nat.

(** A delivery whose fragment, if it has the first-part flag, has 6 bytes. *)
Definition first_part_has_6 (d : Delivery) : Prop :=
  first_part_of_unique_id (message d) = true ->
  length (unique_id (message d)) = 6%nat.

End ServerStream.

(** ** Concrete streams and log messages *)

Module StreamScenario.
Import DynamicNodeIDServer ServerStream Scenario.

(** A delivery to the server on node 1 with the default range, while
    nodes 2 and 3 are in the status registry. *)
Definition delivery (t : float) (m : Allocation) : Delivery :=
  {| handler := server 1 127; registry := live [2; 3]; clock := t; message := m |}.

(** A handshake for [uid] requesting address 5, a stray fragment, and a
    first fragment of another device. *)
Definition inbox : list Delivery :=
  [ delivery 0 (first_part frag1);
    delivery 1 (follow_up frag2 0);
    delivery 2 (follow_up frag3 5);
    delivery 3 (follow_up frag1 0);
    delivery 9 (first_part frag2) ].

(** The table after [uid] was granted address 5. *)
Definition granted : State :=
  {| ALLOCATION := {[ uid := Some 5 ]}; QUERY := uid; QUERY_TIME := 2 |}.

(** A log message with the given level, from the source "node", with the
    text "node". *)
Definition log_message (severity : Z) : DebugLogMessageMonitor.LogMessage :=
  {| DebugLogMessageMonitor.level := severity;
     DebugLogMessageMonitor.source := [x6e; x6f; x64; x65];
     DebugLogMessageMonitor.text := [x6e; x6f; x64; x65] |}.

End StreamScenario.

(** * Properties *)

(** ** Ranges and the scan loop *)

Lemma range_lookup (a b : Z) (i : nat) (n : Z) :
  range a b !! i = Some n <-> n = a + Z.of_nat i /\ Z.of_nat i < b - a.
Proof. unfold range. apply lookup_seqZ. Qed.

Lemma range_down_lookup (a b : Z) (i : nat) (n : Z) :
  range_down a b !! i = Some n <-> n = a - Z.of_nat i /\ Z.of_nat i < a - b.
Proof.
  unfold range_down. rewrite list_lookup_fmap. split.
  - destruct (seqZ 0 (a - b) !! i) as [k|] eqn:E; simpl; [|discriminate].
    apply lookup_seqZ in E. intros [= <-]. lia.
  - intros [-> Hi]. rewrite lookup_seqZ_lt by lia. simpl. f_equal; lia.
Qed.

Lemma elem_of_range (a b n : Z) : n ∈ range a b <-> a <= n < b.
Proof. unfold range. rewrite elem_of_seqZ. lia. Qed.

Lemma elem_of_range_down (a b n : Z) : n ∈ range_down a b <-> b < n <= a.
Proof.
  rewrite list_elem_of_lookup. split.
  - intros [i Hi]. apply range_down_lookup in Hi. lia.
  - intros Hn. exists (Z.to_nat (a - n)). apply range_down_lookup. lia.
Qed.

(** Subtracting 0.0 changes no float: zeros keep their sign, infinities and
    NaN stay, and a finite number is returned as it is. *)
Lemma float_sub_zero (x : float) : PrimFloat.sub x 0 = x.
Proof.
  apply FloatAxioms.Prim2SF_inj. rewrite FloatAxioms.sub_spec.
  change (FloatOps.Prim2SF 0) with (SpecFloat.S754_zero false).
  destruct (FloatOps.Prim2SF x) as [[|]| | |]; reflexivity.
Qed.

(** The time elapsed since a reading of 0.0 is the reading itself. *)
Lemma elapsed_gt_since_zero (x limit : float) :
  elapsed_gt x 0 limit = PrimFloat.ltb limit x.
Proof. unfold elapsed_gt. rewrite float_sub_zero. reflexivity. Qed.

Module ScanFacts.
Import DynamicNodeIDServer.

(** The loop either leaves the variable alone, every candidate being
    excluded, or stops at the first candidate that is not. *)
Lemma scan_inv (ids : list Z) (excluded : gset (option Z)) (cur : option Z) :
  (scan ids excluded cur = cur /\ forall n, n ∈ ids -> Some n ∈ excluded)
  \/ (exists (i : nat) (r : Z),
        ids !! i = Some r /\ (Some r ∉ excluded)
        /\ (forall (j : nat) n, ids !! j = Some n -> (j < i)%nat -> Some n ∈ excluded)
        /\ scan ids excluded cur = Some r).
Proof.
  induction ids as [|x ids IH]; simpl.
  - left. split; [reflexivity|]. intros n Hn. inversion Hn.
  - destruct (decide (Some x ∈ excluded)) as [Hx|Hx].
    + destruct IH as [[Heq Hall]|(i & r & Hi & Hr & Hlt & Heq)].
      * left. split; [exact Heq|].
        intros n Hn. apply elem_of_cons in Hn as [->|Hn]; auto.
      * right. exists (S i), r. repeat split; auto.
        intros [|j] n Hj Hji; simpl in Hj.
        -- injection Hj as <-. exact Hx.
        -- apply (Hlt j); [exact Hj|lia].
    + right. exists 0%nat, x. repeat split; auto.
      intros j n _ Hj. lia.
Qed.

Lemma scan_all_excluded (ids : list Z) (excluded : gset (option Z)) (cur : option Z) :
  (forall n, n ∈ ids -> Some n ∈ excluded) -> scan ids excluded cur = cur.
Proof.
  intros Hall. destruct (scan_inv ids excluded cur) as [[H _]|(i & r & Hi & Hr & _)];
    [exact H|].
  exfalso. apply Hr, Hall. apply list_elem_of_lookup. eauto.
Qed.

(** Scanning upward: the least address of [a, b) that is not excluded. *)
Lemma scan_range_first (a b : Z) (excluded : gset (option Z)) (cur : option Z) (free : Z) :
  a <= free < b -> Some free ∉ excluded ->
  exists r, scan (range a b) excluded cur = Some r
            /\ a <= r < b /\ (Some r ∉ excluded)
            /\ forall n, a <= n < r -> Some n ∈ excluded.
Proof.
  intros Hfree Hnot.
  destruct (scan_inv (range a b) excluded cur)
    as [[_ Hall]|(i & r & Hi & Hr & Hlt & Heq)].
  - exfalso. apply Hnot, Hall, elem_of_range. exact Hfree.
  - apply range_lookup in Hi as [-> Hi]. exists (a + Z.of_nat i).
    repeat split; try lia; auto.
    intros n Hn. apply (Hlt (Z.to_nat (n - a))); [|lia].
    apply range_lookup. lia.
Qed.

(** Scanning downward: the greatest address of (b, a] that is not
    excluded. *)
Lemma scan_range_down_first (a b : Z) (excluded : gset (option Z)) (cur : option Z) (free : Z) :
  b < free <= a -> Some free ∉ excluded ->
  exists r, scan (range_down a b) excluded cur = Some r
            /\ b < r <= a /\ (Some r ∉ excluded)
            /\ forall n, r < n <= a -> Some n ∈ excluded.
Proof.
  intros Hfree Hnot.
  destruct (scan_inv (range_down a b) excluded cur)
    as [[_ Hall]|(i & r & Hi & Hr & Hlt & Heq)].
  - exfalso. apply Hnot, Hall, elem_of_range_down. exact Hfree.
  - apply range_down_lookup in Hi as [-> Hi]. exists (a - Z.of_nat i).
    repeat split; try lia; auto.
    intros n Hn. apply (Hlt (Z.to_nat (a - n))); [|lia].
    apply range_down_lookup. lia.
Qed.

End ScanFacts.

(** ** The allocation server *)

Module ServerProps.
Import DynamicNodeIDServer ScanFacts.

(** *** One lemma per branch of [on_message] *)

Lemma on_message_first self ns now m st :
  first_part_of_unique_id m = true ->
  on_message self ns now m st =
    ({| ALLOCATION := ALLOCATION st; QUERY := unique_id m; QUERY_TIME := now |},
     [broadcast (echo (unique_id m)); log_debug (GotFirstStage (unique_id m))]).
Proof. intros Hf. unfold on_message. rewrite Hf. reflexivity. Qed.

Lemma on_message_second self ns now m st :
  first_part_of_unique_id m = false ->
  length (unique_id m) = 6%nat -> length (QUERY st) = 6%nat ->
  on_message self ns now m st =
    ({| ALLOCATION := ALLOCATION st; QUERY := QUERY st ++ unique_id m;
        QUERY_TIME := now |},
     [broadcast (echo (QUERY st ++ unique_id m));
      log_debug (GotSecondStage (QUERY st ++ unique_id m))]).
Proof. intros Hf Hm Hq. unfold on_message. rewrite Hf, Hm, Hq. reflexivity. Qed.

Lemma on_message_third self ns now m st :
  first_part_of_unique_id m = false ->
  length (unique_id m) = 4%nat -> length (QUERY st) = 12%nat ->
  let query := QUERY st ++ unique_id m in
  let node_allocated_id := resolve self ns (ALLOCATION st) query (node_id m) in
  on_message self ns now m st =
    ({| ALLOCATION := <[query := node_allocated_id]> (ALLOCATION st);
        QUERY := query; QUERY_TIME := now |},
     log_debug (GotThirdStage query) :: announce node_allocated_id query).
Proof.
  intros Hf Hm Hq. unfold on_message. rewrite Hf, Hm, Hq. reflexivity.
Qed.

Lemma on_message_other self ns now m st :
  first_part_of_unique_id m = false ->
  ~ (length (unique_id m) = 6%nat /\ length (QUERY st) = 6%nat) ->
  ~ (length (unique_id m) = 4%nat /\ length (QUERY st) = 12%nat) ->
  on_message self ns now m st =
    if elapsed_gt now (QUERY_TIME st) QUERY_TIMEOUT
    then ({| ALLOCATION := ALLOCATION st; QUERY := [];
             QUERY_TIME := QUERY_TIME st |}, [log_error QueryTimeout])
    else (st, []).
Proof.
  intros Hf H66 H412. unfold on_message. rewrite Hf.
  destruct ((length (unique_id m) =? 6)%nat && (length (QUERY st) =? 6)%nat) eqn:E1.
  { exfalso. apply H66. apply andb_true_iff in E1 as [?%Nat.eqb_eq ?%Nat.eqb_eq]. auto. }
  destruct ((length (unique_id m) =? 4)%nat && (length (QUERY st) =? 12)%nat) eqn:E2;
    [|reflexivity].
  exfalso. apply H412. apply andb_true_iff in E2 as [?%Nat.eqb_eq ?%Nat.eqb_eq]. auto.
Qed.

(** *** [resolve] *)

Lemma truthy_true (v : option Z) : truthy v = true <-> exists n, v = Some n /\ n <> 0.
Proof.
  destruct v as [n|]; simpl; unfold truthy_int.
  - rewrite negb_true_iff, Z.eqb_neq. split; [eauto|]. intros (k & [= ->] & Hk). exact Hk.
  - split; [discriminate|]. intros (k & Hk & _). discriminate.
Qed.

(** An address already granted is returned as it is, and neither loop is
    entered. *)
Lemma resolve_granted self ns allocation query requested a :
  allocation !! query = Some (Some a) -> a <> 0 ->
  let excluded := allocated_node_ids self ns allocation in
  let found := previously_allocated allocation query in
  found = Some a
  /\ scan_up_runs requested found = false
  /\ scan_down_runs (scan_up self excluded requested found) = false
  /\ resolve self ns allocation query requested = Some a.
Proof.
  intros Hq Ha. simpl.
  assert (Hfound : previously_allocated allocation query = Some a)
    by (unfold previously_allocated; rewrite Hq; reflexivity).
  assert (Ht : truthy (Some a) = true) by (apply truthy_true; eauto).
  unfold resolve, scan_down, scan_up, scan_down_runs, scan_up_runs.
  rewrite Hfound, !Ht. cbn [negb]. rewrite !andb_false_r, !Ht. cbn [negb]. auto.
Qed.

(** The value stored by a completion is a truthy address exactly when a
    grant is broadcast. *)
Lemma announce_granted (n : Z) (query : bytes) :
  n <> 0 -> announce (Some n) query = [broadcast (grant n query); log_info (Allocated n query)].
Proof.
  intros Hn. unfold announce, truthy_int.
  apply Z.eqb_neq in Hn. rewrite Hn. reflexivity.
Qed.

Lemma announce_failed (v : option Z) (query : bytes) :
  truthy v = false -> announce v query = [log_error CouldntAllocate].
Proof. destruct v as [n|]; simpl; [|reflexivity]. intros ->. reflexivity. Qed.

Lemma run_cons self ns now m rest st :
  run self ns ((now, m) :: rest) st =
    (fst (run self ns rest (fst (on_message self ns now m st))),
     snd (on_message self ns now m st)
     ++ snd (run self ns rest (fst (on_message self ns now m st)))).
Proof.
  simpl. destruct (on_message self ns now m st) as [st1 out1]. simpl.
  destruct (run self ns rest st1) as [st2 out2]. reflexivity.
Qed.

(** A handshake of 6, 6 and 4 bytes runs through the three accepting
    branches, whatever the session held before and whatever the clock
    readings are. *)
Lemma run_handshake self ns st t1 t2 t3 f1 f2 f3 r1 r2 requested :
  length f1 = 6%nat -> length f2 = 6%nat -> length f3 = 4%nat ->
  let query := (f1 ++ f2) ++ f3 in
  let node_allocated_id := resolve self ns (ALLOCATION st) query requested in
  run self ns (handshake t1 t2 t3 f1 f2 f3 r1 r2 requested) st =
    ({| ALLOCATION := <[query := node_allocated_id]> (ALLOCATION st);
        QUERY := query; QUERY_TIME := t3 |},
     [broadcast (echo f1); log_debug (GotFirstStage f1);
      broadcast (echo (f1 ++ f2)); log_debug (GotSecondStage (f1 ++ f2));
      log_debug (GotThirdStage query)] ++ announce node_allocated_id query).
Proof.
  intros H1 H2 H3. unfold handshake.
  rewrite run_cons, on_message_first by reflexivity. cbn [fst snd].
  rewrite run_cons, on_message_second by (simpl; auto). cbn [fst snd QUERY ALLOCATION unique_id].
  rewrite run_cons, on_message_third
    by (simpl; rewrite ?length_app; auto; lia).
  simpl. rewrite app_nil_r. reflexivity.
Qed.

(** C1.  A handshake (fragments of 6, 6 and 4 bytes) that completes a
    UniqueId to which the table already maps a granted address [a] (an
    integer other than 0, the only values the server treats as an
    allocation) resolves to [a] again: the lookup finds [a], the conditions
    guarding the upward and the downward scan are both false, the grant that
    is broadcast carries [a], and the table is the same map as before. The
    clock readings are arbitrary: fragments of the expected length are
    accepted without a timeout check. *)
Theorem repeated_completion_same_address
    self ns st t1 t2 t3 f1 f2 f3 r1 r2 requested a :
  length f1 = 6%nat -> length f2 = 6%nat -> length f3 = 4%nat ->
  ALLOCATION st !! ((f1 ++ f2) ++ f3) = Some (Some a) -> a <> 0 ->
  let query := (f1 ++ f2) ++ f3 in
  let excluded := allocated_node_ids self ns (ALLOCATION st) in
  let found := previously_allocated (ALLOCATION st) query in
  resolve self ns (ALLOCATION st) query requested = Some a
  /\ scan_up_runs requested found = false
  /\ scan_down_runs (scan_up self excluded requested found) = false
  /\ run self ns (handshake t1 t2 t3 f1 f2 f3 r1 r2 requested) st =
       ({| ALLOCATION := ALLOCATION st; QUERY := query; QUERY_TIME := t3 |},
        [broadcast (echo f1); log_debug (GotFirstStage f1);
         broadcast (echo (f1 ++ f2)); log_debug (GotSecondStage (f1 ++ f2));
         log_debug (GotThirdStage query);
         broadcast (grant a query); log_info (Allocated a query)]).
Proof.
  intros H1 H2 H3 Hq Ha query excluded found.
  destruct (resolve_granted self ns (ALLOCATION st) query requested a Hq Ha)
    as (_ & Hup & Hdown & Hres).
  repeat split; auto.
  rewrite run_handshake by assumption. fold query.
  rewrite Hres, announce_granted by assumption.
  rewrite insert_id by exact Hq. reflexivity.
Qed.

(** *** The two scans *)

(** Membership in the excluded set, address by address: the address is
    recorded in the table, or is a key of the status registry, or is the
    server's own node ID. *)
Lemma excluded_iff self ns allocation (n : Z) :
  Some n ∈ allocated_node_ids self ns allocation
  <-> (exists other, allocation !! other = Some (Some n))
      \/ is_Some (ns !! n)
      \/ n = self_node_id self.
Proof.
  unfold allocated_node_ids.
  rewrite !elem_of_union, elem_of_map_img, elem_of_map, elem_of_singleton.
  split.
  - intros [[Himg|(k & [= <-] & Hk)]|[= ->]]; auto.
    right. left. apply elem_of_dom, Hk.
  - intros [Himg|[Hlive| ->]]; auto.
    left. right. exists n. split; [reflexivity|]. apply elem_of_dom, Hlive.
Qed.

(** C7.  For a UniqueId without an allocation (no entry, or an entry that
    is [None] or 0) and a requested address [R > 0] (the field is unsigned,
    so this is every non-zero request) such that some address of
    [R, MAX_ADDR) is outside the excluded set, [resolve] returns the least
    such address: it lies in [R, MAX_ADDR), is not excluded, and every
    address from [R] up to it is excluded.  Address by address: the one
    returned is not the server's own node ID, not a key of the status
    registry and not recorded in the table, and every address from [R] up to
    it is one of these. *)
Theorem resolve_first_free_from_requested
    self ns allocation query requested free :
  truthy (previously_allocated allocation query) = false ->
  0 < requested ->
  requested <= free < snd (dynamic_id_range self) ->
  Some free ∉ allocated_node_ids self ns allocation ->
  exists a,
    resolve self ns allocation query requested = Some a
    /\ requested <= a < snd (dynamic_id_range self)
    /\ (Some a ∉ allocated_node_ids self ns allocation)
    /\ (forall n, requested <= n < a ->
                  Some n ∈ allocated_node_ids self ns allocation)
    /\ a <> self_node_id self
    /\ ns !! a = None
    /\ (forall other, allocation !! other <> Some (Some a))
    /\ (forall n, requested <= n < a ->
                  n = self_node_id self
                  \/ is_Some (ns !! n)
                  \/ exists other, allocation !! other = Some (Some n)).
Proof.
  intros Hprev Hreq Hrange Hfree.
  destruct (scan_range_first requested (snd (dynamic_id_range self))
              (allocated_node_ids self ns allocation)
              (previously_allocated allocation query) free Hrange Hfree)
    as (r & Hscan & Hr & Hrfree & Hleast).
  exists r.
  assert (Hout : ~ ((exists other, allocation !! other = Some (Some r))
                    \/ is_Some (ns !! r) \/ r = self_node_id self))
    by (rewrite <- excluded_iff; exact Hrfree).
  split; [|split; [lia|split; [exact Hrfree|split; [exact Hleast|
           split; [|split; [|split]]]]]].
  - unfold resolve, scan_up, scan_up_runs, scan_down, scan_down_runs.
    rewrite Hprev.
    replace (truthy_int requested) with true
      by (symmetry; unfold truthy_int; apply negb_true_iff, Z.eqb_neq; lia).
    cbn [andb negb]. rewrite Hscan.
    replace (truthy (Some r)) with true
      by (symmetry; apply truthy_true; exists r; split; [reflexivity|lia]).
    reflexivity.
  - intros ->. apply Hout. auto.
  - destruct (ns !! r) eqn:E; [|reflexivity]. exfalso. apply Hout. eauto.
  - intros other Hother. apply Hout. eauto.
  - intros n Hn. apply Hleast, excluded_iff in Hn. tauto.
Qed.

(** The upward scan leaves [node_allocated_id] as the lookup set it when
    nothing was requested or every address of [R, MAX_ADDR) is excluded. *)
Lemma scan_up_nothing self excluded requested found :
  requested = 0
  \/ (forall n, requested <= n < snd (dynamic_id_range self) -> Some n ∈ excluded) ->
  scan_up self excluded requested found = found.
Proof.
  intros [->|Hall]; unfold scan_up, scan_up_runs.
  - reflexivity.
  - destruct (_ && _); [|reflexivity].
    apply scan_all_excluded. intros n Hn. apply Hall, elem_of_range, Hn.
Qed.

(** C3, as the code has it.  For a UniqueId without an allocation, when the
    upward scan grants nothing (nothing was requested, or every address of
    [R, MAX_ADDR) is excluded), [resolve] returns the greatest address [a]
    with [MIN_ADDR < a <= MAX_ADDR] that is not excluded; [MAX_ADDR] itself
    is a candidate.  When every such address is excluded the result is what
    the lookup left, which is falsy: the allocation fails. *)
Theorem resolve_fallback_highest_free
    self ns allocation query requested :
  truthy (previously_allocated allocation query) = false ->
  requested = 0
  \/ (forall n, requested <= n < snd (dynamic_id_range self) ->
                Some n ∈ allocated_node_ids self ns allocation) ->
  let lo := fst (dynamic_id_range self) in
  let hi := snd (dynamic_id_range self) in
  let excluded := allocated_node_ids self ns allocation in
  (exists a,
      resolve self ns allocation query requested = Some a
      /\ lo < a <= hi /\ (Some a ∉ excluded)
      /\ forall n, a < n <= hi -> Some n ∈ excluded)
  \/ ((forall n, lo < n <= hi -> Some n ∈ excluded)
      /\ resolve self ns allocation query requested
         = previously_allocated allocation query
      /\ truthy (resolve self ns allocation query requested) = false).
Proof.
  intros Hprev Hup lo hi excluded.
  assert (Hres : resolve self ns allocation query requested
                 = scan (range_down hi lo) excluded
                     (previously_allocated allocation query)).
  { unfold resolve. rewrite scan_up_nothing by exact Hup.
    unfold scan_down, scan_down_runs. rewrite Hprev. reflexivity. }
  destruct (scan_inv (range_down hi lo) excluded
              (previously_allocated allocation query))
    as [[Heq Hall]|(i & r & Hi & Hr & _)].
  - right. rewrite Hres, Heq. repeat split; auto.
    intros n Hn. apply Hall, elem_of_range_down, Hn.
  - left. apply range_down_lookup in Hi as [-> Hi].
    apply (scan_range_down_first hi lo excluded
             (previously_allocated allocation query) (hi - Z.of_nat i)) in Hr;
      [|lia].
    destruct Hr as (a & Hscan & Ha & Hafree & Hgreatest).
    exists a. rewrite Hres. auto.
Qed.

(** *** Failed allocations *)

(** What the upward scan can leave in [node_allocated_id]. *)
Lemma scan_up_result self excluded requested found :
  scan_up self excluded requested found = found
  \/ exists r, scan_up self excluded requested found = Some r
               /\ (Some r ∉ excluded)
               /\ requested <= r < snd (dynamic_id_range self).
Proof.
  unfold scan_up. destruct (scan_up_runs requested found); [|left; reflexivity].
  destruct (scan_inv (range requested (snd (dynamic_id_range self))) excluded found)
    as [[Heq _]|(i & r & Hi & Hr & _ & Heq)]; [left; exact Heq|].
  right. exists r. apply range_lookup in Hi. repeat split; auto; lia.
Qed.

(** A positive address that one of the scans reaches and that is not
    excluded is enough for [resolve] to grant an address. *)
Lemma resolve_grants self ns allocation query requested free :
  truthy (previously_allocated allocation query) = false ->
  Some free ∉ allocated_node_ids self ns allocation ->
  0 < free ->
  fst (dynamic_id_range self) < free <= snd (dynamic_id_range self)
  \/ (0 < requested /\ requested <= free < snd (dynamic_id_range self)) ->
  exists a, resolve self ns allocation query requested = Some a
            /\ a <> 0 /\ (Some a ∉ allocated_node_ids self ns allocation).
Proof.
  intros Hprev Hfree Hpos Hreach. unfold resolve.
  set (excluded := allocated_node_ids self ns allocation) in *.
  set (found := previously_allocated allocation query) in *.
  unfold scan_down, scan_down_runs.
  destruct (truthy (scan_up self excluded requested found)) eqn:Hu; cbn [negb].
  - destruct (scan_up_result self excluded requested found)
      as [Heq|(r & Heq & Hr & _)].
    + rewrite Heq in Hu. congruence.
    + rewrite Heq in Hu |- *. apply truthy_true in Hu as (n & [= <-] & Hn). eauto.
  - destruct Hreach as [Hdown|[Hreq Hup]].
    + destruct (scan_range_down_first _ _ excluded
                  (scan_up self excluded requested found) free Hdown Hfree)
        as (a & Hscan & Ha & Hafree & Hgreatest).
      exists a. repeat split; auto.
      destruct (decide (a < free)) as [Hlt|Hge]; [|lia].
      exfalso. apply Hfree, Hgreatest. lia.
    + exfalso.
      destruct (scan_range_first _ _ excluded found free Hup Hfree)
        as (r & Hscan & Hr & _).
      unfold scan_up, scan_up_runs in Hu. rewrite Hprev in Hu.
      replace (truthy_int requested) with true in Hu
        by (symmetry; unfold truthy_int; apply negb_true_iff, Z.eqb_neq; lia).
      cbn [andb negb] in Hu. rewrite Hscan in Hu.
      simpl in Hu. unfold truthy_int in Hu.
      apply negb_false_iff, Z.eqb_eq in Hu. lia.
Qed.

(** C4, as the code has it.  When a completion finds no address (the
    UniqueId has no allocation, the upward scan has nothing to grant and
    every address of (MIN_ADDR, MAX_ADDR] is excluded), the handler logs the
    error and broadcasts nothing, and it still executes the assignment
    [ALLOCATION[QUERY] = node_allocated_id]: the table now maps the UniqueId
    to the falsy value the lookup left ([None] when there was no entry),
    and is the same at every other key. *)
Theorem exhausted_stores_null self ns now m st :
  first_part_of_unique_id m = false ->
  length (unique_id m) = 4%nat -> length (QUERY st) = 12%nat ->
  let query := QUERY st ++ unique_id m in
  let excluded := allocated_node_ids self ns (ALLOCATION st) in
  truthy (previously_allocated (ALLOCATION st) query) = false ->
  node_id m = 0
  \/ (forall n, node_id m <= n < snd (dynamic_id_range self) -> Some n ∈ excluded) ->
  (forall n, fst (dynamic_id_range self) < n <= snd (dynamic_id_range self) ->
             Some n ∈ excluded) ->
  let st' := fst (on_message self ns now m st) in
  snd (on_message self ns now m st)
    = [log_debug (GotThirdStage query); log_error CouldntAllocate]
  /\ ALLOCATION st' !! query = Some (previously_allocated (ALLOCATION st) query)
  /\ (ALLOCATION st !! query = None -> ALLOCATION st' !! query = Some None)
  /\ (forall k, k <> query -> ALLOCATION st' !! k = ALLOCATION st !! k)
  /\ QUERY st' = query.
Proof.
  intros Hf Hm Hq query excluded Hprev Hup Hdown st'.
  assert (Hres : resolve self ns (ALLOCATION st) query (node_id m)
                 = previously_allocated (ALLOCATION st) query).
  { unfold resolve. fold excluded. rewrite scan_up_nothing by exact Hup.
    unfold scan_down. destruct (scan_down_runs _); [|reflexivity].
    apply scan_all_excluded. intros n Hn. apply Hdown, elem_of_range_down, Hn. }
  subst st'. rewrite on_message_third by assumption. cbn [fst snd ALLOCATION QUERY].
  fold query. rewrite Hres, announce_failed by exact Hprev.
  repeat split.
  - apply lookup_insert_eq.
  - intros Hnone. rewrite lookup_insert_eq. unfold previously_allocated.
    rewrite Hnone. reflexivity.
  - intros k Hk. apply lookup_insert_ne. congruence.
Qed.

(** C9.  A completion that finds no address leaves the UniqueId mapped to a
    falsy value.  At a later completion of the same UniqueId, by any server
    instance and registry, over any state in which that entry is still
    falsy, the entry does not count as an allocation: the condition of the
    upward scan is the one of a fresh UniqueId (the request is non-zero),
    and as soon as a positive address that a scan reaches is not excluded,
    an address is granted, broadcast, and written over the entry. *)
Theorem failed_allocation_not_permanent self ns now m st :
  first_part_of_unique_id m = false ->
  length (unique_id m) = 4%nat -> length (QUERY st) = 12%nat ->
  let query := QUERY st ++ unique_id m in
  truthy (resolve self ns (ALLOCATION st) query (node_id m)) = false ->
  let st1 := fst (on_message self ns now m st) in
  (exists v, ALLOCATION st1 !! query = Some v /\ truthy v = false)
  /\ forall self' ns' now' m' st2,
       first_part_of_unique_id m' = false ->
       length (unique_id m') = 4%nat -> length (QUERY st2) = 12%nat ->
       QUERY st2 ++ unique_id m' = query ->
       (exists v, ALLOCATION st2 !! query = Some v /\ truthy v = false) ->
       let excluded := allocated_node_ids self' ns' (ALLOCATION st2) in
       scan_up_runs (node_id m') (previously_allocated (ALLOCATION st2) query)
         = truthy_int (node_id m')
       /\ forall free,
            Some free ∉ excluded -> 0 < free ->
            fst (dynamic_id_range self') < free <= snd (dynamic_id_range self')
            \/ (0 < node_id m' /\ node_id m' <= free < snd (dynamic_id_range self')) ->
            exists a,
              a <> 0 /\ (Some a ∉ excluded)
              /\ on_message self' ns' now' m' st2 =
                   ({| ALLOCATION := <[query := Some a]> (ALLOCATION st2);
                       QUERY := query; QUERY_TIME := now' |},
                    [log_debug (GotThirdStage query);
                     broadcast (grant a query); log_info (Allocated a query)]).
Proof.
  intros Hf Hm Hq query Hfail st1. split.
  - exists (resolve self ns (ALLOCATION st) query (node_id m)). split; [|exact Hfail].
    subst st1. rewrite on_message_third by assumption. apply lookup_insert_eq.
  - intros self' ns' now' m' st2 Hf' Hm' Hq' Hsame (v & Hv & Hfalsy) excluded.
    assert (Hprev : truthy (previously_allocated (ALLOCATION st2) query) = false)
      by (unfold previously_allocated; rewrite Hv; exact Hfalsy).
    split.
    + unfold scan_up_runs. rewrite Hprev. apply andb_true_r.
    + intros free Hfree Hpos Hreach.
      destruct (resolve_grants self' ns' (ALLOCATION st2) query (node_id m') free
                  Hprev Hfree Hpos Hreach) as (a & Hres & Ha & Hafree).
      exists a. repeat split; auto.
      rewrite on_message_third by assumption. cbn zeta. rewrite Hsame, Hres.
      rewrite announce_granted by exact Ha. reflexivity.
Qed.

(** *** Recorded addresses are never 0

    With a lower bound of the range that is not negative and requests that
    are not negative (the defaults, and an unsigned message field), the
    value 0 never enters the table: a recorded address that is not [None]
    is truthy. *)

Lemma resolve_nonzero self ns allocation query requested a :
  0 <= fst (dynamic_id_range self) -> 0 <= requested ->
  granted_nonzero allocation ->
  resolve self ns allocation query requested = Some a -> a <> 0.
Proof.
  intros Hlo Hreq Hok. unfold resolve.
  set (excluded := allocated_node_ids self ns allocation).
  set (found := previously_allocated allocation query).
  assert (Hfound : forall n, found = Some n -> n <> 0).
  { intros n Hn. apply (Hok query). subst found. unfold previously_allocated in Hn.
    destruct (allocation !! query) as [v|]; [subst v; reflexivity|discriminate]. }
  assert (Hup : forall n, scan_up self excluded requested found = Some n -> n <> 0).
  { intros n Hn. unfold scan_up, scan_up_runs in Hn.
    destruct (truthy_int requested) eqn:Hr; cbn [andb] in Hn; [|auto].
    destruct (negb (truthy found)); [|auto].
    destruct (scan_inv (range requested (snd (dynamic_id_range self))) excluded found)
      as [[Heq _]|(i & r & Hi & _ & _ & Heq)]; rewrite Heq in Hn; [auto|].
    injection Hn as <-. apply range_lookup in Hi.
    unfold truthy_int in Hr. apply negb_true_iff, Z.eqb_neq in Hr. lia. }
  unfold scan_down. destruct (scan_down_runs _); [|apply Hup].
  destruct (scan_inv (range_down (snd (dynamic_id_range self))
                        (fst (dynamic_id_range self))) excluded
              (scan_up self excluded requested found))
    as [[Heq _]|(i & r & Hi & _ & _ & Heq)]; rewrite Heq; [apply Hup|].
  intros [= <-]. apply range_down_lookup in Hi. lia.
Qed.

Lemma on_message_granted_nonzero self ns now m st :
  0 <= fst (dynamic_id_range self) -> 0 <= node_id m ->
  granted_nonzero (ALLOCATION st) ->
  granted_nonzero (ALLOCATION (fst (on_message self ns now m st))).
Proof.
  intros Hlo Hreq Hok. unfold on_message.
  destruct (first_part_of_unique_id m); [exact Hok|].
  destruct (_ && _); [exact Hok|].
  destruct (_ && _); cbn [fst ALLOCATION].
  - intros query a. rewrite lookup_insert. case_decide as Hq.
    + intros [= Hres]. exact (resolve_nonzero _ _ _ _ _ _ Hlo Hreq Hok Hres).
    + apply Hok.
  - destruct (elapsed_gt _ _ _); exact Hok.
Qed.

(** *** The session buffer *)

(** A non-first fragment that meets a session of 16 bytes, or of any length
    other than 6 and 12, matches neither appending branch. *)
Lemma on_message_ignored self ns now m st :
  first_part_of_unique_id m = false ->
  length (QUERY st) <> 6%nat ->
  length (QUERY st) <> 12%nat \/ length (unique_id m) <> 4%nat ->
  elapsed_gt now (QUERY_TIME st) QUERY_TIMEOUT = false ->
  on_message self ns now m st = (st, []).
Proof.
  intros Hf H6 H12 Hin.
  rewrite on_message_other by (auto; intros [? ?]; destruct H12; auto).
  rewrite Hin. reflexivity.
Qed.

(** C2, as the code has it.  Take a fragment that is late as line 156
    measures it: the binary64 difference between the clock reading and the
    time of the last accepted fragment is greater than 3.0.  The timeout is
    looked at in the last branch only.  If the fragment has no first-part
    flag and fits neither the second stage (6 bytes on a session of 6) nor
    the third (4 bytes on a session of 12), the session is emptied, the
    reset is logged, and the table and the recorded time stay as they were.
    If it has the flag or fits a stage it is processed as at any other
    time: its bytes replace the session or are appended to it, and the time
    is recorded. *)
Theorem late_mis_sequenced_fragment_resets self ns now m st :
  elapsed_gt now (QUERY_TIME st) QUERY_TIMEOUT = true ->
  (first_part_of_unique_id m = false ->
   ~ (length (unique_id m) = 6%nat /\ length (QUERY st) = 6%nat) ->
   ~ (length (unique_id m) = 4%nat /\ length (QUERY st) = 12%nat) ->
   on_message self ns now m st =
     ({| ALLOCATION := ALLOCATION st; QUERY := []; QUERY_TIME := QUERY_TIME st |},
      [log_error QueryTimeout])
   /\ length (QUERY (fst (on_message self ns now m st))) = 0%nat)
  /\ (first_part_of_unique_id m = true ->
      on_message self ns now m st =
        ({| ALLOCATION := ALLOCATION st; QUERY := unique_id m; QUERY_TIME := now |},
         [broadcast (echo (unique_id m)); log_debug (GotFirstStage (unique_id m))]))
  /\ (first_part_of_unique_id m = false ->
      length (unique_id m) = 6%nat -> length (QUERY st) = 6%nat ->
      on_message self ns now m st =
        ({| ALLOCATION := ALLOCATION st; QUERY := QUERY st ++ unique_id m;
            QUERY_TIME := now |},
         [broadcast (echo (QUERY st ++ unique_id m));
          log_debug (GotSecondStage (QUERY st ++ unique_id m))]))
  /\ (first_part_of_unique_id m = false ->
      length (unique_id m) = 4%nat -> length (QUERY st) = 12%nat ->
      on_message self ns now m st =
        ({| ALLOCATION :=
              <[QUERY st ++ unique_id m
                  := resolve self ns (ALLOCATION st) (QUERY st ++ unique_id m)
                       (node_id m)]> (ALLOCATION st);
            QUERY := QUERY st ++ unique_id m; QUERY_TIME := now |},
         log_debug (GotThirdStage (QUERY st ++ unique_id m))
         :: announce (resolve self ns (ALLOCATION st) (QUERY st ++ unique_id m)
                        (node_id m))
                     (QUERY st ++ unique_id m))).
Proof.
  intros Hlate. repeat apply conj.
  - intros Hf H66 H412. rewrite on_message_other by assumption.
    rewrite Hlate. split; reflexivity.
  - apply on_message_first.
  - apply on_message_second.
  - intros Hf Hm Hq. rewrite on_message_third by assumption. reflexivity.
Qed.

(** C6, as the code has it.  The third branch never assigns [QUERY] again
    after appending: once the 4-byte fragment has completed the UniqueId the
    session holds its 16 bytes and the time of that fragment.  From there a
    fragment with the first-part flag replaces the 16 bytes by its own, a
    fragment without it for which line 156 finds the timeout passed (the
    binary64 difference between its clock reading and that time is greater
    than 3.0) empties the session, and a fragment without it for which the
    comparison fails changes nothing. *)
Theorem completion_keeps_buffer self ns now m st :
  first_part_of_unique_id m = false ->
  length (unique_id m) = 4%nat -> length (QUERY st) = 12%nat ->
  let st1 := fst (on_message self ns now m st) in
  QUERY st1 = QUERY st ++ unique_id m
  /\ length (QUERY st1) = 16%nat
  /\ QUERY_TIME st1 = now
  /\ forall self' ns' now' m',
       (first_part_of_unique_id m' = true ->
        QUERY (fst (on_message self' ns' now' m' st1)) = unique_id m')
       /\ (first_part_of_unique_id m' = false ->
           elapsed_gt now' now QUERY_TIMEOUT = true ->
           QUERY (fst (on_message self' ns' now' m' st1)) = [])
       /\ (first_part_of_unique_id m' = false ->
           elapsed_gt now' now QUERY_TIMEOUT = false ->
           on_message self' ns' now' m' st1 = (st1, [])).
Proof.
  intros Hf Hm Hq st1.
  assert (Hst1 : QUERY st1 = QUERY st ++ unique_id m /\ QUERY_TIME st1 = now)
    by (subst st1; rewrite on_message_third by assumption; split; reflexivity).
  destruct Hst1 as [HQ HT].
  assert (Hlen : length (QUERY st1) = 16%nat)
    by (rewrite HQ, length_app, Hm, Hq; reflexivity).
  repeat split; auto.
  - intros Hf'. rewrite on_message_first by exact Hf'. reflexivity.
  - intros Hf' Hlate.
    rewrite on_message_other by (auto; intros [_ ?]; lia).
    rewrite <- HT in Hlate. rewrite Hlate. reflexivity.
  - intros Hf' Hin. apply on_message_ignored; auto; try lia.
    rewrite HT. exact Hin.
Qed.

(** C8, as the code has it.  A fragment with the first-part flag replaces
    the session by its bytes whatever their number, records the time and
    broadcasts the echo with node ID 0.  If that number is not 6, a later
    fragment without the flag, processed within the timeout of it (the
    comparison of line 156 fails), changes nothing and produces nothing,
    unless the first fragment had 12 bytes and the later one has 4: the
    third branch accepts that one, at any clock reading, as the completion
    of a UniqueId of 16 bytes, resolves and records it. *)
Theorem first_part_replaces_session self ns now m st :
  first_part_of_unique_id m = true ->
  let st1 :=
    {| ALLOCATION := ALLOCATION st; QUERY := unique_id m; QUERY_TIME := now |} in
  on_message self ns now m st =
    (st1, [broadcast (echo (unique_id m)); log_debug (GotFirstStage (unique_id m))])
  /\ forall self' ns' now' m',
       (length (unique_id m) <> 6%nat ->
        first_part_of_unique_id m' = false ->
        elapsed_gt now' now QUERY_TIMEOUT = false ->
        length (unique_id m) <> 12%nat \/ length (unique_id m') <> 4%nat ->
        on_message self' ns' now' m' st1 = (st1, []))
       /\ (length (unique_id m) = 12%nat ->
           first_part_of_unique_id m' = false ->
           length (unique_id m') = 4%nat ->
           let query := unique_id m ++ unique_id m' in
           let node_allocated_id :=
             resolve self' ns' (ALLOCATION st) query (node_id m') in
           on_message self' ns' now' m' st1 =
             ({| ALLOCATION := <[query := node_allocated_id]> (ALLOCATION st);
                 QUERY := query; QUERY_TIME := now' |},
              log_debug (GotThirdStage query) :: announce node_allocated_id query)).
Proof.
  intros Hf st1. split.
  - apply on_message_first, Hf.
  - intros self' ns' now' m'. split.
    + intros H6 Hf' Hin H12. apply on_message_ignored; auto.
    + intros H12 Hf' H4. rewrite on_message_third by assumption. reflexivity.
Qed.

(** *** Concrete runs *)

Section Concrete.
Import Scenario.

(** The scenario of the specification: nodes 1, 2 and 3 excluded, address 5
    requested and granted. *)
Example scenario_grants_5 :
  run (server 1 127) (live [2; 3]) (handshake 0 1 2 frag1 frag2 frag3 0 0 5) initial
  = ({| ALLOCATION := {[ uid := Some 5 ]}; QUERY := uid; QUERY_TIME := 2 |},
     [broadcast (echo frag1); log_debug (GotFirstStage frag1);
      broadcast (echo (frag1 ++ frag2)); log_debug (GotSecondStage (frag1 ++ frag2));
      log_debug (GotThirdStage uid);
      broadcast (grant 5 uid); log_info (Allocated 5 uid)]).
Proof. vm_compute. reflexivity. Qed.

Lemma repeated_completion_witness :
  run (server 1 127) (live [2; 3]) (handshake 10 11 12 frag1 frag2 frag3 0 0 9)
      {| ALLOCATION := {[ uid := Some 5 ]}; QUERY := uid; QUERY_TIME := 2 |}
  = ({| ALLOCATION := {[ uid := Some 5 ]}; QUERY := uid; QUERY_TIME := 12 |},
     [broadcast (echo frag1); log_debug (GotFirstStage frag1);
      broadcast (echo (frag1 ++ frag2)); log_debug (GotSecondStage (frag1 ++ frag2));
      log_debug (GotThirdStage uid);
      broadcast (grant 5 uid); log_info (Allocated 5 uid)]).
Proof.
  destruct (repeated_completion_same_address (server 1 127) (live [2; 3])
              {| ALLOCATION := {[ uid := Some 5 ]}; QUERY := uid; QUERY_TIME := 2 |}
              10 11 12 frag1 frag2 frag3 0 0 9 5)
    as (_ & _ & _ & Hrun);
    [reflexivity | reflexivity | reflexivity | vm_compute; reflexivity | lia |].
  exact Hrun.
Defined.

Lemma resolve_first_free_witness :
  exists a,
    resolve (server 1 127) (live [2; 3; 5; 6]) ∅ uid 5 = Some a
    /\ 5 <= a < 127
    /\ (Some a ∉ allocated_node_ids (server 1 127) (live [2; 3; 5; 6]) ∅)
    /\ (forall n, 5 <= n < a ->
                  Some n ∈ allocated_node_ids (server 1 127) (live [2; 3; 5; 6]) ∅)
    /\ a <> self_node_id (server 1 127)
    /\ live [2; 3; 5; 6] !! a = None
    /\ (forall other, (∅ : gmap bytes (option Z)) !! other <> Some (Some a))
    /\ (forall n, 5 <= n < a ->
                  n = self_node_id (server 1 127)
                  \/ is_Some (live [2; 3; 5; 6] !! n)
                  \/ exists other,
                       (∅ : gmap bytes (option Z)) !! other = Some (Some n)).
Proof.
  apply (resolve_first_free_from_requested
           (server 1 127) (live [2; 3; 5; 6]) ∅ uid 5 7);
    [reflexivity | lia | simpl; lia | vm_compute; discriminate].
Defined.
(** With the range (1, 100) and address 120 requested, no address of the
    range is at or above the request, the upward scan is over the empty
    [range(120, 100)], and the downward scan returns its first candidate,
    [MAX_ADDR] = 100 itself.  With the default range and every address of
    [5, 127) live, a request for 5 is answered with 127. *)
Lemma fallback_returns_MAX_ADDR :
  let self := server 1 100 in
  previously_allocated ∅ uid = None
  /\ (forall n, 120 <= n -> 1 <= n <= 100 -> Some n ∈ allocated_node_ids self ∅ ∅)
  /\ resolve self ∅ ∅ uid 120 = Some (snd (dynamic_id_range self))
  /\ ~ (exists a, resolve self ∅ ∅ uid 120 = Some a
                  /\ a < snd (dynamic_id_range self))
  /\ resolve (server 1 127) (live (seqZ 5 122)) ∅ uid 5
     = Some (snd (dynamic_id_range (server 1 127))).
Proof.
  simpl. repeat apply conj.
  - reflexivity.
  - intros n Hn Hr. lia.
  - vm_compute. reflexivity.
  - intros (a & Ha & Hlt). vm_compute in Ha. injection Ha as <-. lia.
  - vm_compute. reflexivity.
Qed.

Lemma resolve_fallback_witness :
  (exists a,
      resolve (server 1 5) (live [4; 5]) ∅ uid 4 = Some a
      /\ 1 < a <= 5
      /\ (Some a ∉ allocated_node_ids (server 1 5) (live [4; 5]) ∅)
      /\ forall n, a < n <= 5 ->
                   Some n ∈ allocated_node_ids (server 1 5) (live [4; 5]) ∅)
  \/ ((forall n, 1 < n <= 5 ->
                 Some n ∈ allocated_node_ids (server 1 5) (live [4; 5]) ∅)
      /\ resolve (server 1 5) (live [4; 5]) ∅ uid 4 = previously_allocated ∅ uid
      /\ truthy (resolve (server 1 5) (live [4; 5]) ∅ uid 4) = false).
Proof.
  apply (resolve_fallback_highest_free (server 1 5) (live [4; 5]) ∅ uid 4).
  - reflexivity.
  - right. simpl. intros n Hn. assert (n = 4) as -> by lia. vm_compute. reflexivity.
Defined.

(** Range (1, 3), the server on node 1, nodes 2 and 3 live: every address
    is excluded, the error is logged, nothing is broadcast, and the table,
    empty before, has an entry for the UniqueId afterwards. *)
Lemma exhausted_creates_entry :
  let self := server 1 3 in
  let st := stage2 ∅ 0 in
  let result := on_message self (live [2; 3]) 1 (follow_up frag3 0) st in
  (forall n, 1 <= n <= 3 -> Some n ∈ allocated_node_ids self (live [2; 3]) (ALLOCATION st))
  /\ snd result = [log_debug (GotThirdStage uid); log_error CouldntAllocate]
  /\ ALLOCATION st !! uid = None
  /\ ALLOCATION (fst result) !! uid = Some None
  /\ ALLOCATION (fst result) <> ALLOCATION st.
Proof.
  cbv zeta. repeat apply conj.
  - intros n Hn.
    assert (n = 1 \/ n = 2 \/ n = 3) as [->|[->| ->]] by lia; vm_compute; reflexivity.
  - vm_compute. reflexivity.
  - reflexivity.
  - vm_compute. reflexivity.
  - intros Heq. apply (f_equal (fun table => table !! uid)) in Heq.
    vm_compute in Heq. discriminate Heq.
Qed.

Lemma exhausted_stores_null_witness :
  let st := stage2 ∅ 0 in
  let result := on_message (server 1 3) (live [2; 3]) 1 (follow_up frag3 0) st in
  snd result = [log_debug (GotThirdStage uid); log_error CouldntAllocate]
  /\ ALLOCATION (fst result) !! uid = Some (previously_allocated ∅ uid)
  /\ (ALLOCATION st !! uid = None -> ALLOCATION (fst result) !! uid = Some None)
  /\ (forall k, k <> uid -> ALLOCATION (fst result) !! k = ALLOCATION st !! k)
  /\ QUERY (fst result) = uid.
Proof.
  apply (exhausted_stores_null (server 1 3) (live [2; 3]) 1 (follow_up frag3 0)
           (stage2 ∅ 0)).
  - reflexivity.
  - reflexivity.
  - reflexivity.
  - reflexivity.
  - left. reflexivity.
  - simpl. intros n Hn.
    assert (n = 2 \/ n = 3) as [->| ->] by lia; vm_compute; reflexivity.
Defined.

Lemma failed_allocation_witness :
  let self := {| self_node_id := 10; dynamic_id_range := (1, 3) |} in
  exists a,
    a <> 0
    /\ (Some a ∉ allocated_node_ids self (live [2; 3]) {[ uid := None ]})
    /\ on_message self (live [2; 3]) 6 (follow_up frag3 1) (stage2 {[ uid := None ]} 5)
       = ({| ALLOCATION := <[ uid := Some a ]> {[ uid := None ]};
             QUERY := uid; QUERY_TIME := 6 |},
          [log_debug (GotThirdStage uid);
           broadcast (grant a uid); log_info (Allocated a uid)]).
Proof.
  intros self.
  destruct (failed_allocation_not_permanent self (live [2; 3]) 1
              (follow_up frag3 0) (stage2 ∅ 0)) as [_ Hlater];
    [reflexivity | reflexivity | reflexivity | vm_compute; reflexivity |].
  assert (Hnull : exists v, ALLOCATION (stage2 {[ uid := None ]} 5) !! uid = Some v
                            /\ truthy v = false)
    by (exists None; split; [vm_compute|]; reflexivity).
  pose proof (Hlater self (live [2; 3]) 6%float (follow_up frag3 1)
                (stage2 {[ uid := None ]} 5) eq_refl eq_refl eq_refl eq_refl Hnull)
    as Hstep.
  cbv zeta in Hstep. destruct Hstep as [_ Hgrant].
  apply (Hgrant 1).
  - vm_compute. discriminate.
  - lia.
  - right. simpl. lia.
Defined.

(** A fragment processed 10 s after the last accepted one is not dropped
    when it has the first-part flag (its 6 bytes become the session) or
    fits the second stage (its 6 bytes are appended to the 6 held). *)
Lemma late_fragment_accepted :
  let st := {| ALLOCATION := ∅; QUERY := frag1; QUERY_TIME := 0 |} in
  let restarted := fst (on_message (server 1 127) ∅ 10 (first_part frag1) st) in
  let appended := fst (on_message (server 1 127) ∅ 10 (follow_up frag2 0) st) in
  elapsed_gt 10 (QUERY_TIME st) QUERY_TIMEOUT = true
  /\ QUERY restarted = frag1 /\ length (QUERY restarted) = 6%nat
  /\ QUERY appended = frag1 ++ frag2 /\ length (QUERY appended) = 12%nat.
Proof. cbv zeta. repeat apply conj; vm_compute; reflexivity. Qed.

Lemma late_mis_sequenced_witness :
  let st := {| ALLOCATION := ∅; QUERY := frag1; QUERY_TIME := 0 |} in
  on_message (server 1 127) ∅ 10 (follow_up frag3 0) st
  = ({| ALLOCATION := ∅; QUERY := []; QUERY_TIME := 0 |}, [log_error QueryTimeout])
  /\ length (QUERY (fst (on_message (server 1 127) ∅ 10 (follow_up frag3 0) st))) = 0%nat.
Proof.
  destruct (late_mis_sequenced_fragment_resets (server 1 127) ∅ 10 (follow_up frag3 0)
              {| ALLOCATION := ∅; QUERY := frag1; QUERY_TIME := 0 |})
    as [Hreset _].
  - vm_compute. reflexivity.
  - apply Hreset.
    + reflexivity.
    + simpl. lia.
    + simpl. lia.
Defined.

(** After the completing fragment the session holds the 16 bytes of the
    UniqueId, and the next fragment without the first-part flag, one second
    later, meets that session and leaves it as it is. *)
Lemma completed_session_keeps_16_bytes :
  let st1 :=
    fst (on_message (server 1 127) (live [2; 3]) 1 (follow_up frag3 5) (stage2 ∅ 0)) in
  QUERY st1 = uid
  /\ length (QUERY st1) = 16%nat
  /\ QUERY st1 <> []
  /\ on_message (server 1 127) (live [2; 3]) 2 (follow_up frag1 0) st1 = (st1, []).
Proof.
  cbv zeta. repeat apply conj; try (vm_compute; reflexivity).
  vm_compute. discriminate.
Qed.

Lemma completion_keeps_buffer_witness :
  let st1 :=
    fst (on_message (server 1 127) (live [2; 3]) 1 (follow_up frag3 5) (stage2 ∅ 0)) in
  QUERY st1 = (frag1 ++ frag2) ++ frag3
  /\ length (QUERY st1) = 16%nat
  /\ QUERY_TIME st1 = 1%float
  /\ forall self' ns' now' m',
       (first_part_of_unique_id m' = true ->
        QUERY (fst (on_message self' ns' now' m' st1)) = unique_id m')
       /\ (first_part_of_unique_id m' = false ->
           elapsed_gt now' 1 QUERY_TIMEOUT = true ->
           QUERY (fst (on_message self' ns' now' m' st1)) = [])
       /\ (first_part_of_unique_id m' = false ->
           elapsed_gt now' 1 QUERY_TIMEOUT = false ->
           on_message self' ns' now' m' st1 = (st1, [])).
Proof.
  apply (completion_keeps_buffer (server 1 127) (live [2; 3]) 1 (follow_up frag3 5)
           (stage2 ∅ 0)); reflexivity.
Defined.

(** A first fragment of 12 bytes followed within a second by 4 bytes
    without the flag: the session goes on to 16 bytes and address 5 is
    granted. *)
Lemma twelve_byte_first_part_completes :
  let m := first_part (frag1 ++ frag2) in
  let st1 := fst (on_message (server 1 127) (live [2; 3]) 0 m initial) in
  let result := on_message (server 1 127) (live [2; 3]) 1 (follow_up frag3 5) st1 in
  length (unique_id m) <> 6%nat
  /\ elapsed_gt 1 (QUERY_TIME st1) QUERY_TIMEOUT = false
  /\ QUERY (fst result) = uid
  /\ ALLOCATION (fst result) !! uid = Some (Some 5)
  /\ snd result = [log_debug (GotThirdStage uid);
                   broadcast (grant 5 uid); log_info (Allocated 5 uid)].
Proof.
  cbv zeta. repeat apply conj; try (vm_compute; reflexivity).
  simpl. lia.
Qed.

Lemma first_part_replaces_witness :
  let st1 := {| ALLOCATION := ∅; QUERY := frag3; QUERY_TIME := 7 |} in
  on_message (server 1 127) ∅ 7 (first_part frag3) initial
  = (st1, [broadcast (echo frag3); log_debug (GotFirstStage frag3)])
  /\ forall self' ns' now' m',
       (length frag3 <> 6%nat ->
        first_part_of_unique_id m' = false ->
        elapsed_gt now' 7 QUERY_TIMEOUT = false ->
        length frag3 <> 12%nat \/ length (unique_id m') <> 4%nat ->
        on_message self' ns' now' m' st1 = (st1, []))
       /\ (length frag3 = 12%nat ->
           first_part_of_unique_id m' = false ->
           length (unique_id m') = 4%nat ->
           let query := frag3 ++ unique_id m' in
           let node_allocated_id := resolve self' ns' ∅ query (node_id m') in
           on_message self' ns' now' m' st1 =
             ({| ALLOCATION := <[query := node_allocated_id]> ∅;
                 QUERY := query; QUERY_TIME := now' |},
              log_debug (GotThirdStage query) :: announce node_allocated_id query)).
Proof.
  apply (first_part_replaces_session (server 1 127) ∅ 7 (first_part frag3) initial).
  reflexivity.
Defined.

End Concrete.

End ServerProps.

(** ** The node status monitor *)

Module MonitorProps.
Import NodeStatusMonitor.

(** The condition of line 33 spelled out on what the two lookups
    returned. *)
Lemma needs_refresh_iff st now node_id message :
  needs_refresh st now node_id message = true
  <-> elapsed_gt now (last_timestamp st node_id) TIMEOUT = true
      \/ uptime_sec message < last_node_uptime st node_id.
Proof.
  unfold needs_refresh. rewrite orb_true_iff, Z.ltb_lt. reflexivity.
Qed.

(** A node seen before: the request is issued exactly when the binary64
    difference between the clock reading and the stored time is greater
    than 30.0 or the uptime went down. *)
Lemma known_node_refresh st now node_id message t previous :
  NODE_TIMESTAMP st !! node_id = Some t ->
  NODE_STATUS st !! node_id = Some previous ->
  needs_refresh st now node_id message = true
  <-> elapsed_gt now t TIMEOUT = true \/ uptime_sec message < uptime_sec previous.
Proof.
  intros Ht Hs. rewrite needs_refresh_iff.
  unfold last_timestamp, last_node_uptime. rewrite Ht, Hs. reflexivity.
Qed.

(** A node never seen: the stored time reads as 0.0 and the uptime as 0, so
    the request depends on the clock reading being above 30 (or on a
    negative uptime). *)
Lemma first_observation_refresh st now node_id message :
  NODE_TIMESTAMP st !! node_id = None ->
  NODE_STATUS st !! node_id = None ->
  needs_refresh st now node_id message = true
  <-> PrimFloat.ltb TIMEOUT now = true \/ uptime_sec message < 0.
Proof.
  intros Ht Hs. rewrite needs_refresh_iff.
  unfold last_timestamp, last_node_uptime. rewrite Ht, Hs.
  rewrite elapsed_gt_since_zero. reflexivity.
Qed.

(** The two registries written by [on_message] have the same keys. *)
Lemma on_message_same_keys stamp now transfer message st :
  dom (NODE_STATUS st) = dom (NODE_TIMESTAMP st) ->
  dom (NODE_STATUS (fst (on_message stamp now transfer message st)))
  = dom (NODE_TIMESTAMP (fst (on_message stamp now transfer message st))).
Proof. intros Hdom. simpl. rewrite !dom_insert_L, Hdom. reflexivity. Qed.

(** C10.  When the response or the transfer is absent the handler returns
    at once: the state, and with it the stored node information, is the one
    it was called with, and nothing is logged or called back.  Whenever the
    new-node callback is invoked, a callback was supplied, both arguments
    were present, the callback receives the source node of the transfer and
    the response, and the registry already maps that node to that
    response. *)
Theorem nodeinfo_response_guard decode has_callback response transfer st :
  (response = None \/ transfer = None ->
   on_nodeinfo_response decode has_callback response transfer st = (st, []))
  /\ forall source r,
       new_node_callback source r
         ∈ snd (on_nodeinfo_response decode has_callback response transfer st) ->
       has_callback = true
       /\ response = Some r
       /\ transfer = Some {| source_node_id := source |}
       /\ NODE_INFO (fst (on_nodeinfo_response decode has_callback response
                            transfer st)) !! source = Some r.
Proof.
  split.
  - intros [-> | ->]; [reflexivity|]. destruct response; reflexivity.
  - intros source r Hin. unfold on_nodeinfo_response in *.
    destruct response as [response|]; [|inversion Hin].
    destruct transfer as [[src]|]; [|inversion Hin].
    destruct (decode (name response)) as [decoded|]; [|inversion Hin].
    simpl in *. apply elem_of_cons in Hin as [Hin|Hin]; [discriminate Hin|].
    destruct has_callback; [|inversion Hin].
    apply list_elem_of_singleton in Hin. injection Hin as -> ->.
    repeat split. apply lookup_insert_eq.
Qed.

Section Concrete.
Import Scenario.

(** The restart scenario of the specification: node 9 reports an uptime of
    100 and, five seconds later, of 50; the second message triggers the
    request. *)
Example restart_detected :
  let st1 := fst (on_message 40 40 (from 9) (status 100) initial) in
  snd (on_message 45 45 (from 9) (status 50) st1) = [request 9].
Proof. vm_compute. reflexivity. Qed.

(** C5.  The first status message ever received from node 9, processed
    while the monotonic clock reads 10.0 s: the stored time of a node never
    seen reads as 0.0, 10.0 - 0.0 is not above 30.0, the uptime 5 is not
    below 0, and no GetNodeInfo request is issued, although the node is
    registered.  The same message at clock reading 31.0 does issue it. *)
Theorem first_observation_early_clock_no_request :
  NODE_STATUS initial !! 9 = None
  /\ NODE_TIMESTAMP initial !! 9 = None
  /\ needs_refresh initial 10 9 (status 5) = false
  /\ snd (on_message 10 10 (from 9) (status 5) initial) = []
  /\ NODE_STATUS (fst (on_message 10 10 (from 9) (status 5) initial)) !! 9
     = Some (status 5)
  /\ snd (on_message 31 31 (from 9) (status 5) initial) = [request 9].
Proof. repeat apply conj; vm_compute; reflexivity. Qed.

Example nodeinfo_recorded_then_called_back :
  on_nodeinfo_response decode_ascii true (Some info) (Some (from 9)) initial
  = ({| NODE_INFO := {[ 9 := info ]}; NODE_STATUS := ∅; NODE_TIMESTAMP := ∅ |},
     [log_info (nodeinfo_line 9 info "node"); new_node_callback 9 info]).
Proof. vm_compute. reflexivity. Qed.

Example nodeinfo_unique_id_in_hex :
  line_hw_unique_id (nodeinfo_line 9 info "node")
  = "0102030405060708090A0B0C0D0E0F10"%string.
Proof. vm_compute. reflexivity. Qed.

Lemma nodeinfo_response_guard_witness :
  on_nodeinfo_response decode_ascii true None (Some (from 9)) initial = (initial, []).
Proof.
  apply (nodeinfo_response_guard decode_ascii true None (Some (from 9)) initial).
  left. reflexivity.
Defined.

End Concrete.

End MonitorProps.

(** ** The allocation table over streams of messages *)

Module TableProps.
Import DynamicNodeIDServer ScanFacts ServerProps ServerStream.

(** [on_message] either leaves the table alone or is in its third branch,
    where it writes [resolve]'s result under the completed UniqueId. *)
Lemma on_message_table self ns now m st :
  ALLOCATION (fst (on_message self ns now m st)) = ALLOCATION st
  \/ (first_part_of_unique_id m = false
      /\ length (unique_id m) = 4%nat /\ length (QUERY st) = 12%nat
      /\ ALLOCATION (fst (on_message self ns now m st))
         = <[QUERY st ++ unique_id m
               := resolve self ns (ALLOCATION st) (QUERY st ++ unique_id m) (node_id m)]>
             (ALLOCATION st)).
Proof.
  unfold on_message.
  destruct (first_part_of_unique_id m); [left; reflexivity|].
  destruct ((length (unique_id m) =? 6)%nat && (length (QUERY st) =? 6)%nat);
    [left; reflexivity|].
  destruct ((length (unique_id m) =? 4)%nat && (length (QUERY st) =? 12)%nat) eqn:E.
  - right. apply andb_true_iff in E as [E1%Nat.eqb_eq E2%Nat.eqb_eq]. auto.
  - left. destruct (elapsed_gt _ _ _); reflexivity.
Qed.

(** A property of states kept by every delivery that satisfies [G] is kept
    by a stream of such deliveries. *)
Lemma deliver_preserves (P : State -> Prop) (G : Delivery -> Prop) :
  (forall d st, G d -> P st -> P (fst (step d st))) ->
  forall inbox st, Forall G inbox -> P st -> P (fst (deliver inbox st)).
Proof.
  intros Hstep inbox. induction inbox as [|d rest IH]; intros st HG HP; [exact HP|].
  apply Forall_cons in HG as [Hd Hrest]. simpl.
  specialize (Hstep d st Hd HP). destruct (step d st) as [st1 out1].
  specialize (IH st1 Hrest Hstep). destruct (deliver rest st1) as [st2 out2].
  exact IH.
Qed.

Lemma deliver_preserves_all (P : State -> Prop) :
  (forall d st, P st -> P (fst (step d st))) ->
  forall inbox st, P st -> P (fst (deliver inbox st)).
Proof.
  intros Hstep inbox st. apply (deliver_preserves P (fun _ => True)); auto.
  apply Forall_forall. auto.
Qed.

(** What [resolve] can return for a UniqueId without an allocation: if the
    result is truthy it comes out of one of the two loops. *)
Lemma resolve_fresh self ns allocation query requested :
  truthy (previously_allocated allocation query) = false ->
  truthy (resolve self ns allocation query requested) = true ->
  exists a,
    resolve self ns allocation query requested = Some a
    /\ a <> 0
    /\ (Some a ∉ allocated_node_ids self ns allocation)
    /\ (requested <= a < snd (dynamic_id_range self)
        \/ fst (dynamic_id_range self) < a <= snd (dynamic_id_range self)).
Proof.
  intros Hprev. unfold resolve.
  set (excluded := allocated_node_ids self ns allocation).
  set (found := previously_allocated allocation query) in *.
  unfold scan_down, scan_down_runs.
  destruct (truthy (scan_up self excluded requested found)) eqn:Hu; cbn [negb].
  - intros _.
    destruct (scan_up_result self excluded requested found)
      as [Heq|(r & Heq & Hr & Hrange)].
    + rewrite Heq in Hu. congruence.
    + rewrite Heq in Hu |- *. apply truthy_true in Hu as (n & [= <-] & Hn).
      exists r. auto.
  - intros Ht.
    destruct (scan_inv (range_down (snd (dynamic_id_range self))
                          (fst (dynamic_id_range self))) excluded
                (scan_up self excluded requested found))
      as [[Heq _]|(i & r & Hi & Hr & _ & Heq)]; rewrite Heq in Ht |- *.
    + congruence.
    + apply truthy_true in Ht as (n & [= <-] & Hn).
      apply range_down_lookup in Hi. exists r. repeat split; auto. right. lia.
Qed.

(** X1.  Every key of the table is a complete UniqueId of 16 bytes: the
    only assignment to the table is made in the third branch, under a
    session of 12 bytes extended by a fragment of 4.  The property is kept
    by every stream of messages, whatever their lengths, flags and times. *)
Theorem table_keys_have_16_bytes inbox st :
  keys_complete (ALLOCATION st) ->
  keys_complete (ALLOCATION (fst (deliver inbox st))).
Proof.
  apply (deliver_preserves_all (fun st => keys_complete (ALLOCATION st))).
  intros d s Hok query. unfold step.
  destruct (on_message_table (handler d) (registry d) (clock d) (message d) s)
    as [-> | (_ & Hm & Hq & ->)]; [apply Hok|].
  rewrite lookup_insert. case_decide as Hk.
  - intros _. subst query. rewrite length_app, Hm, Hq. reflexivity.
  - apply Hok.
Qed.

(** One delivery keeps an address that was granted. *)
Lemma step_keeps_granted d st query a :
  ALLOCATION st !! query = Some (Some a) -> a <> 0 ->
  ALLOCATION (fst (step d st)) !! query = Some (Some a).
Proof.
  intros Hq Ha. unfold step.
  destruct (on_message_table (handler d) (registry d) (clock d) (message d) st)
    as [-> | (_ & _ & _ & ->)]; [exact Hq|].
  rewrite lookup_insert. case_decide as Hk; [|exact Hq].
  rewrite Hk.
  destruct (resolve_granted (handler d) (registry d) (ALLOCATION st) query
              (node_id (message d)) a Hq Ha) as (_ & _ & _ & ->).
  reflexivity.
Qed.

(** X2.  An address once granted to a UniqueId stays: after any stream of
    messages, handled by any instances over any registries and at any
    times, the table still maps that UniqueId to the same address. *)
Theorem granted_address_is_permanent inbox st query a :
  ALLOCATION st !! query = Some (Some a) -> a <> 0 ->
  ALLOCATION (fst (deliver inbox st)) !! query = Some (Some a).
Proof.
  intros Hq Ha. revert st Hq.
  apply (deliver_preserves_all
           (fun st => ALLOCATION st !! query = Some (Some a))).
  intros d st Hst. apply step_keeps_granted; assumption.
Qed.

(** X3.  Entries are never removed: a UniqueId that has an entry (an
    address or the null of a failed allocation) has one after any stream of
    messages. *)
Theorem table_entries_never_removed inbox st query :
  is_Some (ALLOCATION st !! query) ->
  is_Some (ALLOCATION (fst (deliver inbox st)) !! query).
Proof.
  revert st.
  apply (deliver_preserves_all (fun st => is_Some (ALLOCATION st !! query))).
  intros d st Hst. unfold step.
  destruct (on_message_table (handler d) (registry d) (clock d) (message d) st)
    as [-> | (_ & _ & _ & ->)]; [exact Hst|].
  rewrite lookup_insert. case_decide; [eauto|exact Hst].
Qed.

(** One delivery keeps the addresses of different UniqueIds apart. *)
Lemma step_no_shared_address d st :
  no_shared_address (ALLOCATION st) ->
  no_shared_address (ALLOCATION (fst (step d st))).
Proof.
  intros Hok. unfold step.
  destruct (on_message_table (handler d) (registry d) (clock d) (message d) st)
    as [-> | (_ & _ & _ & ->)]; [exact Hok|].
  set (query := QUERY st ++ unique_id (message d)).
  set (v := resolve (handler d) (registry d) (ALLOCATION st) query
              (node_id (message d))).
  destruct (truthy (previously_allocated (ALLOCATION st) query)) eqn:Hprev.
  - (* the UniqueId has its address already: the table is not changed *)
    apply truthy_true in Hprev as (a & Hfound & Ha).
    assert (Hq : ALLOCATION st !! query = Some (Some a)).
    { unfold previously_allocated in Hfound.
      destruct (ALLOCATION st !! query) as [w|]; [subst w; reflexivity|discriminate]. }
    destruct (resolve_granted (handler d) (registry d) (ALLOCATION st) query
                (node_id (message d)) a Hq Ha) as (_ & _ & _ & Hres).
    subst v. rewrite Hres, insert_id by exact Hq. exact Hok.
  - (* a new address is in no entry of the table *)
    assert (Hnew : forall a other,
               a <> 0 -> v = Some a -> ALLOCATION st !! other = Some (Some a) -> False).
    { intros a other Ha Hv Hother.
      destruct (resolve_fresh (handler d) (registry d) (ALLOCATION st) query
                  (node_id (message d)) Hprev) as (a' & Hres & _ & Hfree & _).
      { fold v. rewrite Hv. apply truthy_true. eauto. }
      fold v in Hres. rewrite Hv in Hres. injection Hres as <-.
      apply Hfree. unfold allocated_node_ids.
      apply elem_of_union_l, elem_of_union_l, elem_of_map_img. eauto. }
    intros q1 q2 a Ha. rewrite !lookup_insert.
    case_decide as H1; case_decide as H2; subst.
    + reflexivity.
    + intros [= Hv] Hother. destruct (Hnew a q2 Ha Hv Hother).
    + intros Hother [= Hv]. destruct (Hnew a q1 Ha Hv Hother).
    + apply Hok, Ha.
Qed.

(** X4.  No two UniqueIds are granted the same address: if no address other
    than 0 is recorded twice, none is after any stream of messages.  From
    the empty table of a fresh process this holds for every reachable
    table. *)
Theorem addresses_are_not_shared inbox st :
  no_shared_address (ALLOCATION st) ->
  no_shared_address (ALLOCATION (fst (deliver inbox st))).
Proof.
  apply (deliver_preserves_all (fun s => no_shared_address (ALLOCATION s))).
  intros d s. apply step_no_shared_address.
Qed.

(** X5.  An address granted to a UniqueId that had none is not the server's
    own node ID, is not the ID of a node in the status registry, is not
    recorded for any UniqueId, and lies in [R, MAX_ADDR) or in
    (MIN_ADDR, MAX_ADDR]. *)
Theorem fresh_grant_is_unused self ns allocation query requested a :
  truthy (previously_allocated allocation query) = false ->
  resolve self ns allocation query requested = Some a -> a <> 0 ->
  a <> self_node_id self
  /\ ns !! a = None
  /\ (forall other, allocation !! other <> Some (Some a))
  /\ (requested <= a < snd (dynamic_id_range self)
      \/ fst (dynamic_id_range self) < a <= snd (dynamic_id_range self)).
Proof.
  intros Hprev Hres Ha.
  destruct (resolve_fresh self ns allocation query requested Hprev)
    as (a' & Hres' & _ & Hfree & Hrange).
  { rewrite Hres. apply truthy_true. eauto. }
  rewrite Hres in Hres'. injection Hres' as <-.
  unfold allocated_node_ids in Hfree.
  rewrite !not_elem_of_union in Hfree. destruct Hfree as [[Himg Hlive] Hown].
  repeat split.
  - intros ->. apply Hown, elem_of_singleton. reflexivity.
  - apply not_elem_of_dom. intros Hdom. apply Hlive, elem_of_map. eauto.
  - intros other Hother. apply Himg, elem_of_map_img. eauto.
  - exact Hrange.
Qed.

(** X6.  Every message the handler broadcasts has the first-part flag
    cleared and carries the session as it is after the call.  One with a
    node ID other than 0 is a grant: it carries a UniqueId of 16 bytes, and
    the table maps that UniqueId to the node ID broadcast. *)
Theorem broadcasts_are_echoes_or_recorded_grants self ns now m st response :
  broadcast response ∈ snd (on_message self ns now m st) ->
  let st' := fst (on_message self ns now m st) in
  first_part_of_unique_id response = false
  /\ unique_id response = QUERY st'
  /\ (node_id response <> 0 ->
      length (unique_id response) = 16%nat
      /\ ALLOCATION st' !! unique_id response = Some (Some (node_id response))).
Proof.
  unfold on_message.
  destruct (first_part_of_unique_id m).
  { cbn [fst snd]. intros Hin.
    apply elem_of_cons in Hin as [[= ->]|Hin];
      [|apply list_elem_of_singleton in Hin; discriminate Hin].
    cbn. repeat split; congruence. }
  destruct ((length (unique_id m) =? 6)%nat && (length (QUERY st) =? 6)%nat).
  { cbn [fst snd]. intros Hin.
    apply elem_of_cons in Hin as [[= ->]|Hin];
      [|apply list_elem_of_singleton in Hin; discriminate Hin].
    cbn. repeat split; congruence. }
  destruct ((length (unique_id m) =? 4)%nat && (length (QUERY st) =? 12)%nat) eqn:E.
  - apply andb_true_iff in E as [Hm%Nat.eqb_eq Hq%Nat.eqb_eq].
    cbn [fst snd ALLOCATION QUERY]. intros Hin.
    apply elem_of_cons in Hin as [Hin|Hin]; [discriminate Hin|].
    unfold announce in Hin.
    destruct (resolve self ns (ALLOCATION st) (QUERY st ++ unique_id m) (node_id m))
      as [n|] eqn:Hres; [|apply list_elem_of_singleton in Hin; discriminate Hin].
    destruct (truthy_int n); [|apply list_elem_of_singleton in Hin; discriminate Hin].
    apply elem_of_cons in Hin as [[= ->]|Hin];
      [|apply list_elem_of_singleton in Hin; discriminate Hin].
    cbn. repeat split.
    + rewrite length_app, Hm, Hq. reflexivity.
    + apply lookup_insert_eq.
  - destruct (elapsed_gt _ _ _); cbn [snd]; intros Hin.
    + apply list_elem_of_singleton in Hin. discriminate Hin.
    + inversion Hin.
Qed.

(** X7.  As long as every fragment with the first-part flag has 6 bytes,
    the session holds 0, 6, 12 or 16 bytes after any stream of messages;
    fragments without the flag may have any length. *)
Theorem session_length_is_a_stage inbox st :
  Forall first_part_has_6 inbox ->
  stage_length (length (QUERY st)) ->
  stage_length (length (QUERY (fst (deliver inbox st)))).
Proof.
  apply (deliver_preserves (fun st => stage_length (length (QUERY st)))
           first_part_has_6).
  intros d s Hd Hst. unfold step, first_part_has_6 in *.
  unfold on_message, stage_length in *.
  destruct (first_part_of_unique_id (message d)).
  { cbn. rewrite Hd by reflexivity. auto. }
  destruct ((length (unique_id (message d)) =? 6)%nat && (length (QUERY s) =? 6)%nat)
    eqn:E1.
  { apply andb_true_iff in E1 as [Hm%Nat.eqb_eq Hq%Nat.eqb_eq].
    cbn. rewrite length_app, Hm, Hq. auto. }
  destruct ((length (unique_id (message d)) =? 4)%nat && (length (QUERY s) =? 12)%nat)
    eqn:E2.
  { apply andb_true_iff in E2 as [Hm%Nat.eqb_eq Hq%Nat.eqb_eq].
    cbn. rewrite length_app, Hm, Hq. auto. }
  destruct (elapsed_gt _ _ _); cbn; auto.
Qed.

(** X8.  A handshake that is granted an address, followed by a second
    handshake for the same UniqueId (handled by any instance, over any
    registry, at any times and with any requested address), is granted the
    same address again, and the second handshake leaves the table as the
    first one left it. *)
Theorem repeated_handshake_same_grant
    self ns st t1 t2 t3 f1 f2 f3 r1 r2 requested a
    self' ns' t4 t5 t6 r3 r4 requested' :
  length f1 = 6%nat -> length f2 = 6%nat -> length f3 = 4%nat ->
  resolve self ns (ALLOCATION st) ((f1 ++ f2) ++ f3) requested = Some a ->
  a <> 0 ->
  let query := (f1 ++ f2) ++ f3 in
  let st1 := fst (run self ns (handshake t1 t2 t3 f1 f2 f3 r1 r2 requested) st) in
  ALLOCATION st1 = <[query := Some a]> (ALLOCATION st)
  /\ run self' ns' (handshake t4 t5 t6 f1 f2 f3 r3 r4 requested') st1 =
       ({| ALLOCATION := ALLOCATION st1; QUERY := query; QUERY_TIME := t6 |},
        [broadcast (echo f1); log_debug (GotFirstStage f1);
         broadcast (echo (f1 ++ f2)); log_debug (GotSecondStage (f1 ++ f2));
         log_debug (GotThirdStage query);
         broadcast (grant a query); log_info (Allocated a query)]).
Proof.
  intros H1 H2 H3 Hres Ha query st1.
  assert (Htable : ALLOCATION st1 = <[query := Some a]> (ALLOCATION st)).
  { subst st1 query. rewrite run_handshake by assumption. cbn [fst ALLOCATION].
    rewrite Hres. reflexivity. }
  split; [exact Htable|].
  assert (Hq : ALLOCATION st1 !! query = Some (Some a))
    by (rewrite Htable; apply lookup_insert_eq).
  rewrite run_handshake by assumption. fold query.
  destruct (resolve_granted self' ns' (ALLOCATION st1) query requested' a Hq Ha)
    as (_ & _ & _ & ->).
  rewrite announce_granted by exact Ha.
  rewrite insert_id by exact Hq. reflexivity.
Qed.

End TableProps.

(** ** The status registry over consecutive messages *)

Module RegistryProps.
Import NodeStatusMonitor MonitorProps.

Lemma on_message_output stamp now transfer message st :
  snd (on_message stamp now transfer message st)
  = if needs_refresh st now (source_node_id transfer) message
    then [request (source_node_id transfer)] else [].
Proof. reflexivity. Qed.

(** X9.  For a node that is in both registries, the status handler issues
    the GetNodeInfo request exactly when the comparison of line 33 holds
    (the binary64 difference between the clock reading and the stored time
    is greater than 30.0) or the uptime reported is below the one stored;
    otherwise it issues nothing. *)
Theorem known_node_request_iff stamp now transfer message st t previous :
  NODE_TIMESTAMP st !! source_node_id transfer = Some t ->
  NODE_STATUS st !! source_node_id transfer = Some previous ->
  (snd (on_message stamp now transfer message st) = [request (source_node_id transfer)]
   <-> elapsed_gt now t TIMEOUT = true \/ uptime_sec message < uptime_sec previous)
  /\ (snd (on_message stamp now transfer message st) = []
      <-> elapsed_gt now t TIMEOUT = false
          /\ uptime_sec previous <= uptime_sec message).
Proof.
  intros Ht Hs. rewrite on_message_output.
  pose proof (known_node_refresh st now (source_node_id transfer) message t previous
                Ht Hs) as Hiff.
  destruct (needs_refresh st now (source_node_id transfer) message) eqn:E.
  - assert (Hyes : elapsed_gt now t TIMEOUT = true
                   \/ uptime_sec message < uptime_sec previous)
      by (apply Hiff; reflexivity).
    split; split; auto; try discriminate.
    intros [Hle Hup]. exfalso. destruct Hyes as [Hlt|Hlt]; [congruence|lia].
  - assert (Hno : ~ (elapsed_gt now t TIMEOUT = true
                     \/ uptime_sec message < uptime_sec previous))
      by (rewrite <- Hiff; discriminate).
    split; split; auto; try discriminate.
    + intros Hyes. destruct (Hno Hyes).
    + intros _. split.
      * destruct (elapsed_gt now t TIMEOUT); [|reflexivity].
        exfalso. apply Hno. left. reflexivity.
      * destruct (Z_lt_le_dec (uptime_sec message) (uptime_sec previous)) as [Hlt|Hle];
          [|exact Hle]. exfalso. apply Hno. right. exact Hlt.
Qed.

(** X10.  For a node in neither registry the stored time reads as 0.0 and
    the stored uptime as 0: the request is issued exactly when the clock
    reading itself is above 30 s or the uptime reported is negative. *)
Theorem first_observation_request_iff stamp now transfer message st :
  NODE_TIMESTAMP st !! source_node_id transfer = None ->
  NODE_STATUS st !! source_node_id transfer = None ->
  snd (on_message stamp now transfer message st) = [request (source_node_id transfer)]
  <-> PrimFloat.ltb TIMEOUT now = true \/ uptime_sec message < 0.
Proof.
  intros Ht Hs. rewrite on_message_output.
  pose proof (first_observation_refresh st now (source_node_id transfer) message
                Ht Hs) as Hiff.
  rewrite <- Hiff.
  destruct (needs_refresh st now (source_node_id transfer) message);
    split; auto; discriminate.
Qed.

(** X11.  Two consecutive status messages of one node, from any state: the
    second one triggers the request exactly when the comparison of line 33
    holds against the time stored for the first (the binary64 difference
    between its clock reading and that time is greater than 30.0), or its
    uptime is below the uptime of the first (the node restarted). *)
Theorem second_message_request_iff stamp1 now1 stamp2 now2 transfer m1 m2 st :
  snd (on_message stamp2 now2 transfer m2
         (fst (on_message stamp1 now1 transfer m1 st)))
  = [request (source_node_id transfer)]
  <-> elapsed_gt now2 stamp1 TIMEOUT = true \/ uptime_sec m2 < uptime_sec m1.
Proof.
  rewrite on_message_output.
  pose proof (known_node_refresh (fst (on_message stamp1 now1 transfer m1 st)) now2
                (source_node_id transfer) m2 stamp1 m1) as Hiff.
  cbn [fst on_message NODE_TIMESTAMP NODE_STATUS] in Hiff.
  rewrite !lookup_insert_eq in Hiff. specialize (Hiff eq_refl eq_refl).
  rewrite <- Hiff.
  destruct (needs_refresh _ now2 (source_node_id transfer) m2);
    split; auto; discriminate.
Qed.

(** X12.  A status message changes the registries at its source node only
    and never touches the stored node information, so whether another node
    will trigger a request is not affected by it. *)
Theorem status_message_touches_only_its_node
    stamp now transfer message st other now' message' :
  other <> source_node_id transfer ->
  let st' := fst (on_message stamp now transfer message st) in
  NODE_STATUS st' !! other = NODE_STATUS st !! other
  /\ NODE_TIMESTAMP st' !! other = NODE_TIMESTAMP st !! other
  /\ NODE_INFO st' = NODE_INFO st
  /\ needs_refresh st' now' other message' = needs_refresh st now' other message'.
Proof.
  intros Hother st'.
  assert (Hs : NODE_STATUS st' !! other = NODE_STATUS st !! other)
    by (apply lookup_insert_ne; congruence).
  assert (Ht : NODE_TIMESTAMP st' !! other = NODE_TIMESTAMP st !! other)
    by (apply lookup_insert_ne; congruence).
  repeat split; auto.
  unfold needs_refresh, last_timestamp, last_node_uptime. rewrite Hs, Ht. reflexivity.
Qed.

(** X13.  The status registry and the time registry have the same keys, and
    the keys they have are never removed: both handlers keep this. *)
Theorem registries_have_the_same_nodes
    stamp now transfer message decode has_callback response transfer' st :
  dom (NODE_STATUS st) = dom (NODE_TIMESTAMP st) ->
  let st1 := fst (on_message stamp now transfer message st) in
  let st2 := fst (on_nodeinfo_response decode has_callback response transfer' st) in
  dom (NODE_STATUS st1) = dom (NODE_TIMESTAMP st1)
  /\ dom (NODE_STATUS st1) = {[ source_node_id transfer ]} ∪ dom (NODE_STATUS st)
  /\ dom (NODE_STATUS st2) = dom (NODE_TIMESTAMP st2)
  /\ dom (NODE_STATUS st2) = dom (NODE_STATUS st).
Proof.
  intros Hdom st1 st2.
  assert (H2 : NODE_STATUS st2 = NODE_STATUS st /\ NODE_TIMESTAMP st2 = NODE_TIMESTAMP st).
  { subst st2. unfold on_nodeinfo_response.
    destruct response as [r|]; [|auto]. destruct transfer' as [t|]; [|auto].
    destruct (decode (name r)); auto. }
  destruct H2 as [-> ->].
  repeat split; auto.
  - apply on_message_same_keys, Hdom.
  - subst st1. simpl. apply dom_insert_L.
Qed.

End RegistryProps.

(** ** The registry and the server together *)

Module CrossProps.
Import DynamicNodeIDServer ScanFacts ServerProps TableProps.

(** A broadcast with a node ID other than 0 comes out of the third branch
    and carries what [resolve] returned. *)
Lemma grant_broadcast_inv self ns now m st response :
  broadcast response ∈ snd (on_message self ns now m st) ->
  node_id response <> 0 ->
  resolve self ns (ALLOCATION st) (QUERY st ++ unique_id m) (node_id m)
  = Some (node_id response).
Proof.
  unfold on_message.
  destruct (first_part_of_unique_id m).
  { cbn [snd]. intros Hin Hn. exfalso.
    apply elem_of_cons in Hin as [[= ->]|Hin];
      [apply Hn; reflexivity|apply list_elem_of_singleton in Hin; discriminate Hin]. }
  destruct ((length (unique_id m) =? 6)%nat && (length (QUERY st) =? 6)%nat).
  { cbn [snd]. intros Hin Hn. exfalso.
    apply elem_of_cons in Hin as [[= ->]|Hin];
      [apply Hn; reflexivity|apply list_elem_of_singleton in Hin; discriminate Hin]. }
  destruct ((length (unique_id m) =? 4)%nat && (length (QUERY st) =? 12)%nat).
  - cbn [snd]. intros Hin Hn.
    apply elem_of_cons in Hin as [Hin|Hin]; [discriminate Hin|].
    unfold announce in Hin.
    destruct (resolve self ns (ALLOCATION st) (QUERY st ++ unique_id m) (node_id m))
      as [n|]; [|apply list_elem_of_singleton in Hin; discriminate Hin].
    destruct (truthy_int n); [|apply list_elem_of_singleton in Hin; discriminate Hin].
    apply elem_of_cons in Hin as [[= ->]|Hin];
      [reflexivity|apply list_elem_of_singleton in Hin; discriminate Hin].
  - destruct (elapsed_gt _ _ _); cbn [snd]; intros Hin _.
    + apply list_elem_of_singleton in Hin. discriminate Hin.
    + inversion Hin.
Qed.

(** X14.  Once the status monitor has processed a message from a node, the
    server, reading the monitor's registry, never grants that node's ID to
    a UniqueId that has no allocation: no message it broadcasts for such a
    UniqueId carries that ID (other than the 0 of an echo). *)
Theorem live_node_id_is_not_granted
    stamp now transfer status monitor self now' m st response :
  let ns :=
    NodeStatusMonitor.NODE_STATUS
      (fst (NodeStatusMonitor.on_message stamp now transfer status monitor)) in
  truthy (previously_allocated (ALLOCATION st) (QUERY st ++ unique_id m)) = false ->
  broadcast response ∈ snd (on_message self ns now' m st) ->
  node_id response <> 0 ->
  node_id response <> NodeStatusMonitor.source_node_id transfer.
Proof.
  intros ns Hprev Hin Hn Heq.
  pose proof (grant_broadcast_inv self ns now' m st response Hin Hn) as Hres.
  destruct (resolve_fresh self ns (ALLOCATION st) (QUERY st ++ unique_id m)
              (node_id m) Hprev) as (a & Hres' & _ & Hfree & _).
  { rewrite Hres. apply truthy_true. eauto. }
  rewrite Hres in Hres'. injection Hres' as <-.
  apply Hfree. unfold allocated_node_ids.
  apply elem_of_union_l, elem_of_union_r, elem_of_map.
  exists (node_id response). split; [reflexivity|].
  rewrite Heq. subst ns. simpl. rewrite dom_insert_L.
  apply elem_of_union_l, elem_of_singleton. reflexivity.
Qed.

End CrossProps.

(** ** The hexadecimal unique ID of the node-info log line *)

Module HexProps.
Import NodeStatusMonitor.

Lemma hex_digit_inj (n m : N) :
  (n < 16)%N -> (m < 16)%N -> hex_digit n = hex_digit m -> n = m.
Proof.
  intros Hn Hm Heq. apply (f_equal N_of_ascii) in Heq. unfold hex_digit in Heq.
  destruct (n <? 10)%N eqn:En; destruct (m <? 10)%N eqn:Em;
    rewrite !N_ascii_embedding in Heq by lia;
    try apply N.ltb_lt in En; try apply N.ltb_lt in Em;
    try apply N.ltb_ge in En; try apply N.ltb_ge in Em; lia.
Qed.

Lemma format_02X_inj (c d : byte) : format_02X c = format_02X d -> c = d.
Proof.
  unfold format_02X. intros Heq. injection Heq as Hhi Hlo.
  pose proof (Byte.to_N_bounded c) as Hc. pose proof (Byte.to_N_bounded d) as Hd.
  apply hex_digit_inj in Hhi; [|apply N.Div0.div_lt_upper_bound; lia..].
  apply hex_digit_inj in Hlo; [|apply N.mod_lt; lia..].
  assert (Hn : Byte.to_N c = Byte.to_N d).
  { rewrite (N.div_mod' (Byte.to_N c) 16), (N.div_mod' (Byte.to_N d) 16).
    rewrite Hhi, Hlo. reflexivity. }
  apply (f_equal Byte.of_N) in Hn. rewrite !Byte.of_to_N in Hn. congruence.
Qed.

(** ["".join(...)] on one more element. *)
Lemma join_cons (x : string) (xs : list string) :
  String.concat EmptyString (x :: xs) = (x ++ String.concat EmptyString xs)%string.
Proof.
  destruct xs as [|y ys]; [|reflexivity].
  change (x = (x ++ EmptyString)%string).
  induction x as [|c x IH]; [reflexivity|].
  change (String c x = String c (x ++ EmptyString)%string). f_equal. exact IH.
Qed.

Lemma join_hex_cons (c : byte) (l : bytes) :
  String.concat EmptyString (format_02X <$> (c :: l))
  = String (hex_digit (Byte.to_N c / 16))
      (String (hex_digit (Byte.to_N c mod 16))
         (String.concat EmptyString (format_02X <$> l))).
Proof. rewrite fmap_cons, join_cons. reflexivity. Qed.

Lemma join_hex_length (l : bytes) :
  String.length (String.concat EmptyString (format_02X <$> l)) = (2 * length l)%nat.
Proof.
  induction l as [|c l IH]; [reflexivity|].
  rewrite join_hex_cons. cbn [String.length length]. rewrite IH. lia.
Qed.

Lemma join_hex_inj (l1 l2 : bytes) :
  String.concat EmptyString (format_02X <$> l1)
  = String.concat EmptyString (format_02X <$> l2) ->
  l1 = l2.
Proof.
  revert l2. induction l1 as [|c l1 IH]; intros [|d l2] Heq.
  - reflexivity.
  - rewrite join_hex_cons in Heq. discriminate Heq.
  - rewrite join_hex_cons in Heq. discriminate Heq.
  - rewrite !join_hex_cons in Heq. injection Heq as Hhi Hlo Hrest.
    f_equal; [|apply IH, Hrest].
    apply format_02X_inj. unfold format_02X. rewrite Hhi, Hlo. reflexivity.
Qed.

(** X15.  The hardware unique ID in the node-info log line is written with
    two characters per byte, and the text determines the bytes: two
    responses with the same text have the same unique ID. *)
Theorem logged_unique_id_is_faithful source1 source2 response1 response2 name1 name2 :
  String.length (line_hw_unique_id (nodeinfo_line source1 response1 name1))
  = (2 * length (hw_unique_id (hardware_version response1)))%nat
  /\ (line_hw_unique_id (nodeinfo_line source1 response1 name1)
      = line_hw_unique_id (nodeinfo_line source2 response2 name2) ->
      hw_unique_id (hardware_version response1)
      = hw_unique_id (hardware_version response2)).
Proof.
  split.
  - apply join_hex_length.
  - apply join_hex_inj.
Qed.

End HexProps.

(** ** DebugLogMessageMonitor *)

Module RelayProps.
Import DebugLogMessageMonitor.

Lemma tuple_item_sinks (i : Z) :
  tuple_item sinks i
  = if decide (i = 0 \/ i = -4) then Some logger_debug
    else if decide (i = 1 \/ i = -3) then Some logger_info
    else if decide (i = 2 \/ i = -2) then Some logger_warning
    else if decide (i = 3 \/ i = -1) then Some logger_error
    else None.
Proof.
  destruct (decide (-4 <= i <= 3)) as [Hin|Hout].
  - assert (i = -4 \/ i = -3 \/ i = -2 \/ i = -1 \/ i = 0 \/ i = 1 \/ i = 2 \/ i = 3)
      as [->|[->|[->|[->|[->|[->|[->| ->]]]]]]] by lia; reflexivity.
  - unfold tuple_item. replace (Z.of_nat (length sinks)) with 4 by reflexivity.
    repeat case_decide; try lia.
    repeat match goal with
           | |- context [?a <=? ?b] => destruct (Z.leb_spec a b)
           | |- context [?a <? ?b] => destruct (Z.ltb_spec a b)
           end; cbn [andb]; try reflexivity; lia.
Qed.

(** X16.  The log relay calls a logger method exactly when both byte
    strings decode and the level is in [-4, 3].  A byte string that does
    not decode raises UnicodeDecodeError whatever the level is; with both
    decoded, a level outside [-4, 3] raises IndexError; in both cases
    nothing is logged. *)
Theorem relay_outcome decode transfer message :
  ((exists sink line, on_message decode transfer message = inr (sink, line))
   <-> is_Some (decode (source message)) /\ is_Some (decode (text message))
       /\ -4 <= level message <= 3)
  /\ (on_message decode transfer message = inl UnicodeDecodeError
      <-> decode (source message) = None \/ decode (text message) = None)
  /\ (on_message decode transfer message = inl IndexError
      <-> is_Some (decode (source message)) /\ is_Some (decode (text message))
          /\ ~ (-4 <= level message <= 3)).
Proof.
  unfold on_message. rewrite tuple_item_sinks.
  destruct (decode (source message)) as [s|].
  2: { split; [|split]; split; try discriminate; auto.
       - intros (sink & line & H). discriminate H.
       - intros [[w H] _]. discriminate H.
       - intros [[w H] _]. discriminate H. }
  destruct (decode (text message)) as [t|].
  2: { split; [|split]; split; try discriminate; auto.
       - intros (sink & line & H). discriminate H.
       - intros (_ & [w H] & _). discriminate H.
       - intros (_ & [w H] & _). discriminate H. }
  assert (Hs : is_Some (Some s)) by eauto.
  assert (Ht : is_Some (Some t)) by eauto.
  repeat case_decide; (split; [|split]; split); try discriminate.
  all: try (intros [H'|H']; discriminate H').
  all: try (intros _; repeat split; eauto; lia).
  all: try (intros (_ & _ & H'); exfalso; apply H'; lia).
  all: try (intros (_ & _ & H'); exfalso; lia).
  all: try (intros (sink & line & H'); discriminate H').
  all: try reflexivity.
Qed.

(** X17.  When the relay logs, the line carries the source node of the
    transfer and the two decoded strings, and the method is chosen by the
    level: debug for 0, info for 1, warning for 2, error for 3, and, the
    tuple being indexed as Python does, error for -1 down to debug for
    -4. *)
Theorem relay_sink_of_level decode transfer message sink line :
  on_message decode transfer message = inr (sink, line) ->
  decode (source message) = Some (line_source line)
  /\ decode (text message) = Some (line_text line)
  /\ line_node_id line = NodeStatusMonitor.source_node_id transfer
  /\ (sink = logger_debug <-> level message = 0 \/ level message = -4)
  /\ (sink = logger_info <-> level message = 1 \/ level message = -3)
  /\ (sink = logger_warning <-> level message = 2 \/ level message = -2)
  /\ (sink = logger_error <-> level message = 3 \/ level message = -1).
Proof.
  unfold on_message. rewrite tuple_item_sinks.
  destruct (decode (source message)) as [s|]; [|discriminate].
  destruct (decode (text message)) as [t|]; [|discriminate].
  repeat case_decide; intros [= <- <-]; cbn;
    repeat split; auto; try discriminate; try lia.
Qed.

End RelayProps.

(** ** Timeouts, clocks and exhaustion *)

Module SessionProps.
Import DynamicNodeIDServer ScanFacts ServerProps.

(** X18.  The timeout branch empties the session and leaves the recorded
    time as it was.  So once a fragment has been dropped for the timeout,
    the next fragment without the first-part flag, whatever its length, is
    measured against the same recorded time: if line 156 finds the timeout
    passed for it too, the error is logged once more, and otherwise nothing
    is logged; in both cases nothing else changes. *)
Theorem timeout_is_logged_again self ns now m st self' ns' now' m' :
  first_part_of_unique_id m = false ->
  ~ (length (unique_id m) = 6%nat /\ length (QUERY st) = 6%nat) ->
  ~ (length (unique_id m) = 4%nat /\ length (QUERY st) = 12%nat) ->
  elapsed_gt now (QUERY_TIME st) QUERY_TIMEOUT = true ->
  first_part_of_unique_id m' = false ->
  let st1 := fst (on_message self ns now m st) in
  QUERY st1 = []
  /\ QUERY_TIME st1 = QUERY_TIME st
  /\ on_message self' ns' now' m' st1 =
       (st1, if elapsed_gt now' (QUERY_TIME st) QUERY_TIMEOUT
             then [log_error QueryTimeout] else [])
  /\ on_message self' ns' now m' st1 = (st1, [log_error QueryTimeout]).
Proof.
  intros Hf H66 H412 Hlate Hf' st1.
  assert (Hst1 : st1 = {| ALLOCATION := ALLOCATION st; QUERY := [];
                          QUERY_TIME := QUERY_TIME st |}).
  { subst st1. rewrite on_message_other by assumption.
    rewrite Hlate. reflexivity. }
  rewrite Hst1. repeat apply conj; try reflexivity.
  - rewrite on_message_other by (auto; cbn; intros [_ H]; discriminate H).
    cbn [QUERY_TIME ALLOCATION].
    destruct (elapsed_gt now' (QUERY_TIME st) QUERY_TIMEOUT); reflexivity.
  - rewrite on_message_other by (auto; cbn; intros [_ H]; discriminate H).
    cbn [QUERY_TIME ALLOCATION]. rewrite Hlate. reflexivity.
Qed.

(** X19.  The clock is compared in the timeout branch only.  A fragment
    that has the first-part flag, or has 6 bytes on a session of 6, or has
    4 bytes on a session of 12, is processed in the same way at every clock
    reading: same events, same table, same session; the reading is merely
    stored. *)
Theorem accepted_fragment_ignores_clock self ns now1 now2 m st :
  first_part_of_unique_id m = true
  \/ (length (unique_id m) = 6%nat /\ length (QUERY st) = 6%nat)
  \/ (length (unique_id m) = 4%nat /\ length (QUERY st) = 12%nat) ->
  snd (on_message self ns now1 m st) = snd (on_message self ns now2 m st)
  /\ ALLOCATION (fst (on_message self ns now1 m st))
     = ALLOCATION (fst (on_message self ns now2 m st))
  /\ QUERY (fst (on_message self ns now1 m st))
     = QUERY (fst (on_message self ns now2 m st))
  /\ QUERY_TIME (fst (on_message self ns now1 m st)) = now1.
Proof.
  intros Hacc. unfold on_message.
  destruct (first_part_of_unique_id m); [repeat split|].
  destruct Hacc as [Hacc|[[Hm Hq]|[Hm Hq]]]; [discriminate Hacc| |];
    rewrite Hm, Hq; repeat split.
Qed.

(** X20.  For a UniqueId without an allocation, a range whose lower bound is
    not negative and a request that is not negative, the allocation fails
    exactly when no address is left in reach: every address of
    (MIN_ADDR, MAX_ADDR] is excluded and, if an address was requested,
    every address of [R, MAX_ADDR) is excluded too. *)
Theorem allocation_fails_iff self ns allocation query requested :
  truthy (previously_allocated allocation query) = false ->
  0 <= fst (dynamic_id_range self) -> 0 <= requested ->
  let excluded := allocated_node_ids self ns allocation in
  truthy (resolve self ns allocation query requested) = false
  <-> (forall n, fst (dynamic_id_range self) < n <= snd (dynamic_id_range self) ->
                 Some n ∈ excluded)
      /\ (requested = 0
          \/ forall n, requested <= n < snd (dynamic_id_range self) ->
                       Some n ∈ excluded).
Proof.
  intros Hprev Hlo Hreq excluded. split.
  - intros Hfail.
    assert (Hno : forall free,
               Some free ∉ excluded -> 0 < free ->
               fst (dynamic_id_range self) < free <= snd (dynamic_id_range self)
               \/ (0 < requested /\ requested <= free < snd (dynamic_id_range self)) ->
               False).
    { intros free Hfree Hpos Hreach.
      destruct (resolve_grants self ns allocation query requested free
                  Hprev Hfree Hpos Hreach) as (a & Hres & Ha & _).
      rewrite Hres in Hfail. simpl in Hfail. unfold truthy_int in Hfail.
      apply negb_false_iff, Z.eqb_eq in Hfail. contradiction. }
    split.
    + intros n Hn. destruct (decide (Some n ∈ excluded)) as [Hin|Hout]; [exact Hin|].
      destruct (Hno n Hout); [lia|]. left. exact Hn.
    + destruct (decide (requested = 0)) as [Hz|Hnz]; [left; exact Hz|].
      right. intros n Hn.
      destruct (decide (Some n ∈ excluded)) as [Hin|Hout]; [exact Hin|].
      destruct (Hno n Hout); [lia|]. right. split; [lia|exact Hn].
  - intros [Hdown Hup]. unfold resolve. fold excluded.
    rewrite scan_up_nothing by exact Hup.
    unfold scan_down. destruct (scan_down_runs _); [|exact Hprev].
    rewrite scan_all_excluded; [exact Hprev|].
    intros n Hn. apply Hdown, elem_of_range_down, Hn.
Qed.

End SessionProps.

(** ** Instances on concrete inputs *)

Module Instances.
Import Scenario StreamScenario.

Lemma empty_table_keys_complete : ServerStream.keys_complete ∅.
Proof. intros query [v Hv]. rewrite lookup_empty in Hv. discriminate Hv. Qed.

Lemma empty_table_no_shared_address : ServerStream.no_shared_address ∅.
Proof. intros q1 q2 a _ H1. rewrite lookup_empty in H1. discriminate H1. Qed.

Lemma table_keys_witness :
  ServerStream.keys_complete
    (DynamicNodeIDServer.ALLOCATION
       (fst (ServerStream.deliver inbox DynamicNodeIDServer.initial))).
Proof.
  apply (TableProps.table_keys_have_16_bytes inbox DynamicNodeIDServer.initial).
  simpl. apply empty_table_keys_complete.
Defined.

Lemma granted_address_witness :
  DynamicNodeIDServer.ALLOCATION (fst (ServerStream.deliver inbox granted)) !! uid
  = Some (Some 5).
Proof.
  apply (TableProps.granted_address_is_permanent inbox granted uid 5).
  - vm_compute. reflexivity.
  - lia.
Defined.

Lemma table_entries_witness :
  is_Some
    (DynamicNodeIDServer.ALLOCATION (fst (ServerStream.deliver inbox granted)) !! uid).
Proof.
  apply (TableProps.table_entries_never_removed inbox granted uid).
  exists (Some 5). vm_compute. reflexivity.
Defined.

Lemma addresses_not_shared_witness :
  ServerStream.no_shared_address
    (DynamicNodeIDServer.ALLOCATION
       (fst (ServerStream.deliver inbox DynamicNodeIDServer.initial))).
Proof.
  apply (TableProps.addresses_are_not_shared inbox DynamicNodeIDServer.initial).
  simpl. apply empty_table_no_shared_address.
Defined.

Lemma fresh_grant_witness :
  5 <> DynamicNodeIDServer.self_node_id (server 1 127)
  /\ live [2; 3] !! 5 = None
  /\ (forall other, (∅ : gmap bytes (option Z)) !! other <> Some (Some 5))
  /\ (5 <= 5 < snd (DynamicNodeIDServer.dynamic_id_range (server 1 127))
      \/ fst (DynamicNodeIDServer.dynamic_id_range (server 1 127)) < 5
         <= snd (DynamicNodeIDServer.dynamic_id_range (server 1 127))).
Proof.
  apply (TableProps.fresh_grant_is_unused (server 1 127) (live [2; 3]) ∅ uid 5 5).
  - reflexivity.
  - vm_compute. reflexivity.
  - lia.
Defined.

Lemma broadcast_witness :
  let result :=
    DynamicNodeIDServer.on_message (server 1 127) (live [2; 3]) 1 (follow_up frag3 5)
      (stage2 ∅ 0) in
  DynamicNodeIDServer.first_part_of_unique_id (DynamicNodeIDServer.grant 5 uid) = false
  /\ DynamicNodeIDServer.unique_id (DynamicNodeIDServer.grant 5 uid)
     = DynamicNodeIDServer.QUERY (fst result)
  /\ (DynamicNodeIDServer.node_id (DynamicNodeIDServer.grant 5 uid) <> 0 ->
      length (DynamicNodeIDServer.unique_id (DynamicNodeIDServer.grant 5 uid)) = 16%nat
      /\ DynamicNodeIDServer.ALLOCATION (fst result)
           !! DynamicNodeIDServer.unique_id (DynamicNodeIDServer.grant 5 uid)
         = Some (Some (DynamicNodeIDServer.node_id (DynamicNodeIDServer.grant 5 uid)))).
Proof.
  apply (TableProps.broadcasts_are_echoes_or_recorded_grants
           (server 1 127) (live [2; 3]) 1 (follow_up frag3 5) (stage2 ∅ 0)
           (DynamicNodeIDServer.grant 5 uid)).
  vm_compute. apply elem_of_cons. right. apply elem_of_cons. left. reflexivity.
Defined.

Lemma session_length_witness :
  ServerStream.stage_length
    (length (DynamicNodeIDServer.QUERY
               (fst (ServerStream.deliver inbox DynamicNodeIDServer.initial)))).
Proof.
  apply (TableProps.session_length_is_a_stage inbox DynamicNodeIDServer.initial).
  - unfold inbox. repeat apply Forall_cons_2; try apply Forall_nil_2;
      intros Hflag; first [reflexivity | discriminate Hflag].
  - left. reflexivity.
Defined.

Lemma repeated_handshake_witness :
  let first :=
    DynamicNodeIDServer.handshake 0 1 2 frag1 frag2 frag3 0 0 5 in
  let st1 :=
    fst (DynamicNodeIDServer.run (server 1 127) (live [2; 3]) first
           DynamicNodeIDServer.initial) in
  DynamicNodeIDServer.ALLOCATION st1 = <[uid := Some 5]> ∅
  /\ DynamicNodeIDServer.run (server 1 9) (live [5; 6])
       (DynamicNodeIDServer.handshake 7 8 9 frag1 frag2 frag3 0 0 8) st1
     = ({| DynamicNodeIDServer.ALLOCATION := DynamicNodeIDServer.ALLOCATION st1;
           DynamicNodeIDServer.QUERY := uid;
           DynamicNodeIDServer.QUERY_TIME := 9 |},
        [DynamicNodeIDServer.broadcast (DynamicNodeIDServer.echo frag1);
         DynamicNodeIDServer.log_debug (DynamicNodeIDServer.GotFirstStage frag1);
         DynamicNodeIDServer.broadcast (DynamicNodeIDServer.echo (frag1 ++ frag2));
         DynamicNodeIDServer.log_debug
           (DynamicNodeIDServer.GotSecondStage (frag1 ++ frag2));
         DynamicNodeIDServer.log_debug (DynamicNodeIDServer.GotThirdStage uid);
         DynamicNodeIDServer.broadcast (DynamicNodeIDServer.grant 5 uid);
         DynamicNodeIDServer.log_info (DynamicNodeIDServer.Allocated 5 uid)]).
Proof.
  apply (TableProps.repeated_handshake_same_grant
           (server 1 127) (live [2; 3]) DynamicNodeIDServer.initial
           0 1 2 frag1 frag2 frag3 0 0 5 5 (server 1 9) (live [5; 6]) 7 8 9 0 0 8).
  - reflexivity.
  - reflexivity.
  - reflexivity.
  - vm_compute. reflexivity.
  - lia.
Defined.

Lemma known_node_request_witness :
  let st1 :=
    fst (NodeStatusMonitor.on_message 40 40 (from 9) (status 100)
           NodeStatusMonitor.initial) in
  snd (NodeStatusMonitor.on_message 45 45 (from 9) (status 50) st1)
  = [NodeStatusMonitor.request 9].
Proof.
  intros st1.
  destruct (RegistryProps.known_node_request_iff 45 45 (from 9) (status 50) st1
              40 (status 100)) as [[_ Hyes] _].
  - vm_compute. reflexivity.
  - vm_compute. reflexivity.
  - apply Hyes. right. simpl. lia.
Defined.

Lemma first_observation_request_witness :
  snd (NodeStatusMonitor.on_message 31 31 (from 9) (status 5) NodeStatusMonitor.initial)
  = [NodeStatusMonitor.request 9].
Proof.
  apply (RegistryProps.first_observation_request_iff 31 31 (from 9) (status 5)
           NodeStatusMonitor.initial).
  - reflexivity.
  - reflexivity.
  - left. vm_compute. reflexivity.
Defined.

Lemma status_message_witness :
  let st := fst (NodeStatusMonitor.on_message 40 40 (from 9) (status 100)
                   NodeStatusMonitor.initial) in
  let st' := fst (NodeStatusMonitor.on_message 41 41 (from 7) (status 3) st) in
  NodeStatusMonitor.NODE_STATUS st' !! 9 = NodeStatusMonitor.NODE_STATUS st !! 9
  /\ NodeStatusMonitor.NODE_TIMESTAMP st' !! 9 = NodeStatusMonitor.NODE_TIMESTAMP st !! 9
  /\ NodeStatusMonitor.NODE_INFO st' = NodeStatusMonitor.NODE_INFO st
  /\ NodeStatusMonitor.needs_refresh st' 45 9 (status 50)
     = NodeStatusMonitor.needs_refresh st 45 9 (status 50).
Proof.
  apply (RegistryProps.status_message_touches_only_its_node 41 41 (from 7) (status 3)
           (fst (NodeStatusMonitor.on_message 40 40 (from 9) (status 100)
                   NodeStatusMonitor.initial)) 9 45 (status 50)).
  simpl. lia.
Defined.

Lemma registries_witness :
  let st1 := fst (NodeStatusMonitor.on_message 40 40 (from 9) (status 100)
                    NodeStatusMonitor.initial) in
  let st2 := fst (NodeStatusMonitor.on_nodeinfo_response decode_ascii true (Some info)
                    (Some (from 9)) NodeStatusMonitor.initial) in
  dom (NodeStatusMonitor.NODE_STATUS st1) = dom (NodeStatusMonitor.NODE_TIMESTAMP st1)
  /\ dom (NodeStatusMonitor.NODE_STATUS st1)
     = {[ NodeStatusMonitor.source_node_id (from 9) ]}
       ∪ dom (NodeStatusMonitor.NODE_STATUS NodeStatusMonitor.initial)
  /\ dom (NodeStatusMonitor.NODE_STATUS st2) = dom (NodeStatusMonitor.NODE_TIMESTAMP st2)
  /\ dom (NodeStatusMonitor.NODE_STATUS st2)
     = dom (NodeStatusMonitor.NODE_STATUS NodeStatusMonitor.initial).
Proof.
  apply (RegistryProps.registries_have_the_same_nodes 40 40 (from 9) (status 100)
           decode_ascii true (Some info) (Some (from 9)) NodeStatusMonitor.initial).
  reflexivity.
Defined.

Lemma live_node_witness :
  DynamicNodeIDServer.node_id (DynamicNodeIDServer.grant 127 uid)
  <> NodeStatusMonitor.source_node_id (from 9).
Proof.
  apply (CrossProps.live_node_id_is_not_granted 40 40 (from 9) (status 100)
           NodeStatusMonitor.initial (server 1 127) 1 (follow_up frag3 0)
           (stage2 ∅ 0) (DynamicNodeIDServer.grant 127 uid)).
  - reflexivity.
  - vm_compute. apply elem_of_cons. right. apply elem_of_cons. left. reflexivity.
  - simpl. lia.
Defined.

Lemma relay_sink_witness :
  decode_ascii (DebugLogMessageMonitor.source (log_message 2)) = Some "node"%string
  /\ decode_ascii (DebugLogMessageMonitor.text (log_message 2)) = Some "node"%string
  /\ 9 = NodeStatusMonitor.source_node_id (from 9)
  /\ (DebugLogMessageMonitor.logger_warning = DebugLogMessageMonitor.logger_debug
      <-> DebugLogMessageMonitor.level (log_message 2) = 0
          \/ DebugLogMessageMonitor.level (log_message 2) = -4)
  /\ (DebugLogMessageMonitor.logger_warning = DebugLogMessageMonitor.logger_info
      <-> DebugLogMessageMonitor.level (log_message 2) = 1
          \/ DebugLogMessageMonitor.level (log_message 2) = -3)
  /\ (DebugLogMessageMonitor.logger_warning = DebugLogMessageMonitor.logger_warning
      <-> DebugLogMessageMonitor.level (log_message 2) = 2
          \/ DebugLogMessageMonitor.level (log_message 2) = -2)
  /\ (DebugLogMessageMonitor.logger_warning = DebugLogMessageMonitor.logger_error
      <-> DebugLogMessageMonitor.level (log_message 2) = 3
          \/ DebugLogMessageMonitor.level (log_message 2) = -1).
Proof.
  apply (RelayProps.relay_sink_of_level decode_ascii (from 9) (log_message 2)
           DebugLogMessageMonitor.logger_warning
           {| DebugLogMessageMonitor.line_node_id := 9;
              DebugLogMessageMonitor.line_source := "node";
              DebugLogMessageMonitor.line_text := "node" |}).
  vm_compute. reflexivity.
Defined.

Lemma timeout_logged_again_witness :
  let st := {| DynamicNodeIDServer.ALLOCATION := ∅;
               DynamicNodeIDServer.QUERY := frag1;
               DynamicNodeIDServer.QUERY_TIME := 0 |} in
  let st1 :=
    fst (DynamicNodeIDServer.on_message (server 1 127) ∅ 10 (follow_up frag3 0) st) in
  DynamicNodeIDServer.QUERY st1 = []
  /\ DynamicNodeIDServer.QUERY_TIME st1 = DynamicNodeIDServer.QUERY_TIME st
  /\ DynamicNodeIDServer.on_message (server 1 127) ∅ 11 (follow_up frag2 0) st1
     = (st1, if elapsed_gt 11 (DynamicNodeIDServer.QUERY_TIME st)
                  DynamicNodeIDServer.QUERY_TIMEOUT
             then [DynamicNodeIDServer.log_error DynamicNodeIDServer.QueryTimeout]
             else [])
  /\ DynamicNodeIDServer.on_message (server 1 127) ∅ 10 (follow_up frag2 0) st1
     = (st1, [DynamicNodeIDServer.log_error DynamicNodeIDServer.QueryTimeout]).
Proof.
  apply (SessionProps.timeout_is_logged_again (server 1 127) ∅ 10 (follow_up frag3 0)
           {| DynamicNodeIDServer.ALLOCATION := ∅;
              DynamicNodeIDServer.QUERY := frag1;
              DynamicNodeIDServer.QUERY_TIME := 0 |}
           (server 1 127) ∅ 11 (follow_up frag2 0)).
  - reflexivity.
  - simpl. lia.
  - simpl. lia.
  - vm_compute. reflexivity.
  - reflexivity.
Defined.

Lemma accepted_fragment_witness :
  let st := stage2 ∅ 0 in
  let m := follow_up frag3 5 in
  snd (DynamicNodeIDServer.on_message (server 1 127) (live [2; 3]) 1 m st)
  = snd (DynamicNodeIDServer.on_message (server 1 127) (live [2; 3]) 100 m st)
  /\ DynamicNodeIDServer.ALLOCATION
       (fst (DynamicNodeIDServer.on_message (server 1 127) (live [2; 3]) 1 m st))
     = DynamicNodeIDServer.ALLOCATION
         (fst (DynamicNodeIDServer.on_message (server 1 127) (live [2; 3]) 100 m st))
  /\ DynamicNodeIDServer.QUERY
       (fst (DynamicNodeIDServer.on_message (server 1 127) (live [2; 3]) 1 m st))
     = DynamicNodeIDServer.QUERY
         (fst (DynamicNodeIDServer.on_message (server 1 127) (live [2; 3]) 100 m st))
  /\ DynamicNodeIDServer.QUERY_TIME
       (fst (DynamicNodeIDServer.on_message (server 1 127) (live [2; 3]) 1 m st))
     = 1%float.
Proof.
  apply (SessionProps.accepted_fragment_ignores_clock (server 1 127) (live [2; 3])
           1 100 (follow_up frag3 5) (stage2 ∅ 0)).
  right. right. split; reflexivity.
Defined.

Lemma allocation_fails_witness :
  let excluded :=
    DynamicNodeIDServer.allocated_node_ids (server 1 3) (live [2; 3]) ∅ in
  truthy (DynamicNodeIDServer.resolve (server 1 3) (live [2; 3]) ∅ uid 2) = false
  <-> (forall n,
          fst (DynamicNodeIDServer.dynamic_id_range (server 1 3)) < n
          <= snd (DynamicNodeIDServer.dynamic_id_range (server 1 3)) ->
          Some n ∈ excluded)
      /\ (2 = 0
          \/ forall n,
               2 <= n < snd (DynamicNodeIDServer.dynamic_id_range (server 1 3)) ->
               Some n ∈ excluded).
Proof.
  apply (SessionProps.allocation_fails_iff (server 1 3) (live [2; 3]) ∅ uid 2).
  - reflexivity.
  - simpl. lia.
  - lia.
Defined.

(** Readings whose difference rounds to the limit: 3.1 - 0.1 is 3.0 and
    30.1 - 0.1 is 30.0 in binary64, neither greater than its limit, so the
    stray fragment is ignored and the known node triggers no request. *)
Example difference_rounded_to_the_limit :
  let st := {| DynamicNodeIDServer.ALLOCATION := ∅;
               DynamicNodeIDServer.QUERY := frag1;
               DynamicNodeIDServer.QUERY_TIME := 0x1.999999999999ap-4 |} in
  let seen :=
    fst (NodeStatusMonitor.on_message 0x1.999999999999ap-4 0x1.999999999999ap-4
           (from 9) (status 100) NodeStatusMonitor.initial) in
  PrimFloat.sub 0x1.8cccccccccccdp+1 0x1.999999999999ap-4 = 3%float
  /\ PrimFloat.sub 0x1.e19999999999ap+4 0x1.999999999999ap-4 = 30%float
  /\ DynamicNodeIDServer.on_message (server 1 127) ∅ 0x1.8cccccccccccdp+1
       (follow_up frag3 0) st = (st, [])
  /\ snd (NodeStatusMonitor.on_message 0x1.e19999999999ap+4 0x1.e19999999999ap+4
            (from 9) (status 100) seen) = [].
Proof. cbv zeta. repeat apply conj; vm_compute; reflexivity. Qed.

End Instances.
